(** * token_tool.py: token generator and account creator

    A shallow embedding of [src/main/token_tool.py].  Python [str] values are
    [string]s, Python [int]s are [Z], a [dict] with string keys is an ordered
    association list, the files written by the tool live in a [gmap] from
    paths to contents.  The process-wide random generator and the clock are
    explicit tapes carried by the [World]; the worker threads of
    [create_accounts] are a small-step machine driven by a schedule. *)

From Stdlib Require Import ZArith NArith QArith List Ascii String Lia Bool.
From Stdlib Require Import DecimalString DecimalN DecimalZ DecimalNat.
From stdpp Require Import base gmap strings list.

Set Warnings "-register-all".

Local Open Scope string_scope.

(** ** Configuration (lines 24-35) *)

Definition MAX_ACCOUNTS : Z := 1000.
Definition TOKEN_LENGTH : nat := 64.
Definition USERNAME_LENGTH : nat := 8.
Definition PASSWORD_LENGTH : nat := 12.
Definition DOMAINS : list string :=
  ["gmail.com"; "yahoo.com"; "protonmail.com"; "outlook.com"].
Definition USER_AGENTS : list string :=
  ["Mozilla/5.0 (Windows NT 10.0; Win64; x64) AppleWebKit/537.36 (KHTML, like Gecko) Chrome/91.0.4472.124 Safari/537.36";
   "Mozilla/5.0 (Macintosh; Intel Mac OS X 10_15_7) AppleWebKit/605.1.15 (KHTML, like Gecko) Version/14.1.1 Safari/605.1.15";
   "Mozilla/5.0 (X11; Linux x86_64; rv:89.0) Gecko/20100101 Firefox/89.0"].

(** ** The pieces of Python's [string] and [str] the tool uses *)

Module PyStr.

Definition ascii_lowercase : string := "abcdefghijklmnopqrstuvwxyz".
Definition ascii_uppercase : string := "ABCDEFGHIJKLMNOPQRSTUVWXYZ".
Definition ascii_letters : string := ascii_lowercase +:+ ascii_uppercase.
Definition digits : string := "0123456789".
(** [string.hexdigits] holds both cases of the six letters: 22 characters. *)
Definition hexdigits : string := "0123456789abcdefABCDEF".

Definition code (c : ascii) : nat := nat_of_ascii c.

Definition between (lo hi : nat) (c : ascii) : bool :=
  Nat.leb lo (code c) && Nat.leb (code c) hi.

Definition is_digit (c : ascii) : bool := between 48 57 c.
Definition is_lower (c : ascii) : bool := between 97 122 c.
Definition is_upper (c : ascii) : bool := between 65 90 c.
Definition is_alnum (c : ascii) : bool := is_digit c || is_lower c || is_upper c.
Definition is_lower_alnum (c : ascii) : bool := is_digit c || is_lower c.
Definition is_upper_hex (c : ascii) : bool :=
  is_digit c || between 65 70 c.
Definition is_lower_hex (c : ascii) : bool :=
  is_digit c || between 97 102 c.

(** [str.upper] and [str.lower] on ASCII text. *)
Definition upper_char (c : ascii) : ascii :=
  if is_lower c then ascii_of_nat (code c - 32) else c.
Definition lower_char (c : ascii) : ascii :=
  if is_upper c then ascii_of_nat (code c + 32) else c.

Fixpoint map_chars (f : ascii -> ascii) (s : string) : string :=
  match s with
  | EmptyString => EmptyString
  | String c rest => String (f c) (map_chars f rest)
  end.

Definition upper : string -> string := map_chars upper_char.
Definition lower : string -> string := map_chars lower_char.

(** The characters of a string, as the sequence [random.choices] indexes. *)
Definition chars (s : string) : list ascii := list_ascii_of_string s.

(** [''.join(cs)] for a list of one-character strings. *)
Definition join_chars (cs : list ascii) : string := string_of_list_ascii cs.

(** [sep.join(parts)]. *)
Definition join (sep : string) (parts : list string) : string :=
  String.concat sep parts.

(** [s.split(sep)] for a one-character separator; [cur] holds the
    characters of the current piece, last one first. *)
Fixpoint split_from (sep : ascii) (cur : list ascii) (s : string) : list string :=
  match s with
  | EmptyString => [string_of_list_ascii (rev cur)]
  | String c rest =>
      if Ascii.eqb c sep
      then string_of_list_ascii (rev cur) :: split_from sep [] rest
      else split_from sep (c :: cur) rest
  end.

Definition split (sep : ascii) (s : string) : list string := split_from sep [] s.

Fixpoint forallb_chars (p : ascii -> bool) (s : string) : bool :=
  match s with
  | EmptyString => true
  | String c rest => p c && forallb_chars p rest
  end.

(** [str(n)] for an [int]. *)
Definition str_of_Z (z : Z) : string := NilZero.string_of_int (Z.to_int z).

Fixpoint zeros (n : nat) : string :=
  match n with
  | O => EmptyString
  | S m => String "0" (zeros m)
  end.

(** Zero padding of [body] on the left up to [width] characters. *)
Definition zfill (width : nat) (body : string) : string :=
  zeros (width - String.length body) +:+ body.

(** The format specification [{z:07d}]: sign-aware zero padding to width 7;
    longer numbers are printed in full. *)
Definition format_07d (z : Z) : string :=
  if (z <? 0)%Z
  then "-" +:+ zfill 6 (str_of_Z (Z.abs z))
  else zfill 7 (str_of_Z z).

(** The double quote character, as [json.dumps] writes it around strings. *)
Definition dq : string := String (ascii_of_nat 34) EmptyString.

(** Line feed, carriage return and escape. *)
Definition nl : string := String (ascii_of_nat 10) EmptyString.
Definition cr : string := String (ascii_of_nat 13) EmptyString.
Definition esc : string := String (ascii_of_nat 27) EmptyString.

End PyStr.

(** ** Files and the world outside the program *)

(** A JSON document, as handed to [json.dump]. *)
Inductive json : Type :=
| JStr (s : string)
| JObj (members : list (string * json))
| JArr (items : list json).

(** What a file holds once it has been written: plain text, or the rendering
    of a JSON document at a given indentation ([json.dump(doc, f, indent=n)];
    the rendering itself is the [json] library's). *)
Inductive file : Type :=
| TextFile (text : string)
| JsonFile (doc : json) (indent : nat).

(** One reading of the clock: the integral seconds of [time.time()] and the
    local time as [datetime.now().strftime("%Y-%m-%d %H:%M:%S")] prints it. *)
Record instant := { epoch : Z; local_time : string }.

(** The world: the tape of raw outcomes of the process-wide random generator
    with its cursor, the clock readings with their cursor, what has been
    written to standard output, and the file system. *)
Record World := {
  w_rand : nat -> N;
  w_rpos : nat;
  w_clock : nat -> instant;
  w_cpos : nat;
  w_stdout : list string;
  w_fs : gmap string file
}.

(** A small state monad over the world. *)
Definition Py (A : Type) : Type := World -> A * World.

Definition ret {A} (a : A) : Py A := fun w => (a, w).
Definition bind {A B} (m : Py A) (k : A -> Py B) : Py B :=
  fun w => let '(a, w') := m w in k a w'.

#[global] Instance Py_ret : MRet Py := @ret.
#[global] Instance Py_bind : MBind Py := fun A B k m => bind m k.

Definition value {A} (r : A * World) : A := fst r.
Definition world {A} (r : A * World) : World := snd r.

(** ** The [random] and [time] modules *)

Module Random.

(** The next raw outcome of the generator. *)
Definition raw : Py N := fun w =>
  match w with
  | Build_World rand rpos clock cpos out fs =>
      (rand rpos, Build_World rand (S rpos) clock cpos out fs)
  end.

(** A position below [n]: every position is equally likely when the raw
    outcome is uniform on a multiple of [n] values. *)
Definition randbelow (n : nat) : Py nat :=
  x ← raw ; mret (N.to_nat (x mod N.of_nat n)).

(** [random.choice(seq)].  Python raises IndexError on an empty sequence;
    every sequence the tool passes is a non-empty constant, [dflt] is
    never returned for those. *)
Definition choice {A} (dflt : A) (seq : list A) : Py A :=
  i ← randbelow (List.length seq) ; mret (nth i seq dflt).

(** [random.choices(population, k=k)]: [k] independent draws with
    replacement, each by position in [population]. *)
Fixpoint choices (population : list ascii) (k : nat) : Py (list ascii) :=
  match k with
  | O => mret []
  | S k' =>
      c ← choice "000"%char population ;
      cs ← choices population k' ;
      mret (c :: cs)
  end.

Arguments choices : simpl never.

(** [random.random()]: a float [m / 2^53] with [0 <= m < 2^53]; the
    numerator is returned. *)
Definition random : Py N := x ← raw ; mret (x mod 2 ^ 53)%N.

(** [random.random() > 0.1].  The double nearest to 0.1 is
    [3602879701896397 / 2^55], so the test on [m / 2^53] is exact. *)
Definition gt_one_tenth (m : N) : bool := (3602879701896397 <? 4 * m)%N.

End Random.

Module Time.

Definition tick : Py instant := fun w =>
  match w with
  | Build_World rand rpos clock cpos out fs =>
      (clock cpos, Build_World rand rpos clock (S cpos) out fs)
  end.

(** [int(time.time())]. *)
Definition int_time : Py Z := t ← tick ; mret (epoch t).

(** [datetime.now().strftime("%Y-%m-%d %H:%M:%S")]. *)
Definition now_strftime : Py string := t ← tick ; mret (local_time t).

End Time.

(** ** class TokenGenerator (lines 37-77) *)

(** The generator object.  Its lock is free between calls; [with self.lock]
    makes the update of the counter one atomic step. *)
Record TokenGenerator := { generated : Z }.

Definition TokenGenerator_init : TokenGenerator := {| generated := 0 |}.

Definition _generate_uuid : Py string :=
  g1 ← Random.choices (PyStr.chars (PyStr.lower PyStr.hexdigits)) 8 ;
  g2 ← Random.choices (PyStr.chars (PyStr.lower PyStr.hexdigits)) 4 ;
  g3 ← Random.choices (PyStr.chars (PyStr.lower PyStr.hexdigits)) 4 ;
  g4 ← Random.choices (PyStr.chars (PyStr.lower PyStr.hexdigits)) 4 ;
  g5 ← Random.choices (PyStr.chars (PyStr.lower PyStr.hexdigits)) 12 ;
  mret (PyStr.join "-" [PyStr.join_chars g1; PyStr.join_chars g2;
                       PyStr.join_chars g3; PyStr.join_chars g4;
                       PyStr.join_chars g5]).

(** [json.dumps({"alg": "HS256", "typ": "JWT"})]. *)
Definition jwt_header : string :=
  "{" +:+ PyStr.dq +:+ "alg" +:+ PyStr.dq +:+ ": " +:+ PyStr.dq +:+ "HS256" +:+ PyStr.dq
  +:+ ", " +:+ PyStr.dq +:+ "typ" +:+ PyStr.dq +:+ ": " +:+ PyStr.dq +:+ "JWT" +:+ PyStr.dq
  +:+ "}".

(** [json.dumps({"sub": sub, "iat": iat, "exp": exp})]; [sub] is made of
    letters, digits and an underscore, which [json.dumps] leaves as they
    are. *)
Definition jwt_payload (sub : string) (iat exp : Z) : string :=
  "{" +:+ PyStr.dq +:+ "sub" +:+ PyStr.dq +:+ ": " +:+ PyStr.dq +:+ sub +:+ PyStr.dq
  +:+ ", " +:+ PyStr.dq +:+ "iat" +:+ PyStr.dq +:+ ": " +:+ PyStr.str_of_Z iat
  +:+ ", " +:+ PyStr.dq +:+ "exp" +:+ PyStr.dq +:+ ": " +:+ PyStr.str_of_Z exp
  +:+ "}".

Definition _generate_jwt : Py string :=
  ds ← Random.choices (PyStr.chars PyStr.digits) 9 ;
  iat ← Time.int_time ;
  t ← Time.int_time ;
  sig ← Random.choices (PyStr.chars PyStr.hexdigits) 64 ;
  mret (jwt_header +:+ "."
       +:+ jwt_payload ("user_" +:+ PyStr.join_chars ds) iat (t + 3600) +:+ "."
       +:+ PyStr.join_chars sig).

(** [TokenGenerator.generate]: the counter first, then the chain of
    comparisons of [token_type] with the four literal kinds, each branch
    returning its token; anything else takes the final [else]. *)
Definition generate (self : TokenGenerator) (token_type : string)
  : Py (string * TokenGenerator) :=
  let self := {| generated := generated self + 1 |} in
  token ←
    (if String.eqb token_type "hex" then
       cs ← Random.choices (PyStr.chars (PyStr.upper PyStr.hexdigits)) TOKEN_LENGTH ;
       mret (PyStr.join_chars cs)
     else if String.eqb token_type "numeric" then
       cs ← Random.choices (PyStr.chars PyStr.digits) TOKEN_LENGTH ;
       mret (PyStr.join_chars cs)
     else if String.eqb token_type "uuid" then
       _generate_uuid
     else if String.eqb token_type "jwt" then
       _generate_jwt
     else
       let chars := PyStr.ascii_letters +:+ PyStr.digits in
       cs ← Random.choices (PyStr.chars chars) TOKEN_LENGTH ;
       mret (PyStr.join_chars cs)) ;
  mret (token, self).

(** ** Standard output, colours and files *)

(** The ANSI sequences behind colorama's [Fore] constants. *)
Module Fore.
Definition RED : string := PyStr.esc +:+ "[31m".
Definition GREEN : string := PyStr.esc +:+ "[32m".
Definition YELLOW : string := PyStr.esc +:+ "[33m".
Definition CYAN : string := PyStr.esc +:+ "[36m".
End Fore.

(** [sys.stdout.write(text)]: the text handed to the stream is recorded. *)
Definition stdout_write (text : string) (w : World) : World :=
  match w with
  | Build_World rand rpos clock cpos out fs =>
      Build_World rand rpos clock cpos (out ++ [text]) fs
  end.

(** [print(text)]. *)
Definition print (text : string) (w : World) : World :=
  stdout_write (text +:+ PyStr.nl) w.

(** [with open(path, 'w') as f: ...] writing [content]: the file is created
    or replaced.  (A path that cannot be opened makes Python raise; the file
    system here accepts every path.) *)
Definition write_file (path : string) (content : file) (w : World) : World :=
  match w with
  | Build_World rand rpos clock cpos out fs =>
      Build_World rand rpos clock cpos out (<[path := content]> fs)
  end.

(** ** class AccountCreator (lines 79-127) *)

(** An account record: a [dict] with string keys and string values, in
    insertion order. *)
Definition dict : Type := list (string * string).

Fixpoint dict_get (key : string) (d : dict) : option string :=
  match d with
  | [] => None
  | (k, v) :: rest => if String.eqb k key then Some v else dict_get key rest
  end.

(** What a call gives back: a value, or an exception that was raised. *)
Inductive result (A : Type) : Type :=
| Return (a : A)
| Raise (exn : string).
Arguments Return {A} a.
Arguments Raise {A} exn.

(** The creator object: the counter and the delay (a finite float, kept as
    the rational it denotes).  The lock is free between calls. *)
Record AccountCreator := { created : Z; delay : Q }.

Definition AccountCreator_init (delay : Q) : AccountCreator :=
  {| created := 0; delay := delay |}.

(** [time.sleep(secs)] for a float [secs].  CPython (3.11) turns the length
    into a signed 64-bit count of nanoseconds before it sleeps: [secs * 1e9]
    is taken in double precision, where every product from 2^63 - 512 to
    2^63 + 1024 rounds to 2^63 (and likewise on the negative side), and is
    then rounded away from zero.  A count beyond 2^63 in size raises
    OverflowError; a negative count raises ValueError, and so does 2^63
    itself, which wraps to the least 64-bit integer.  So the call returns
    exactly for a length from 0 to just under 2^63 - 512 nanoseconds.  (A
    system call that fails makes Python raise OSError; the operating system
    here carries out every sleep whose length was accepted.) *)
Definition sleep_nanoseconds (secs : Q) : Q := (secs * inject_Z (10 ^ 9))%Q.

Definition sleep_returns (secs : Q) : bool :=
  Qle_bool 0 (sleep_nanoseconds secs)
  && negb (Qle_bool (inject_Z (2 ^ 63 - 512)) (sleep_nanoseconds secs)).

(** The exception of a [time.sleep(secs)] that does not return. *)
Definition sleep_error (secs : Q) : string :=
  if Qle_bool (inject_Z (- 2 ^ 63 - 1024)) (sleep_nanoseconds secs)
     && Qle_bool (sleep_nanoseconds secs) (inject_Z (2 ^ 63 + 1024))
  then "ValueError"
  else "OverflowError".

(** [not v] for an argument that is [None] or a [str]. *)
Definition falsy (v : option string) : bool :=
  match v with
  | None => true
  | Some s => String.eqb s ""
  end.

Definition _generate_username : Py string :=
  prefix ← Random.choice "" ["user"; "admin"; "test"; "demo"; "temp"] ;
  suffix ← Random.choices (PyStr.chars (PyStr.ascii_lowercase +:+ PyStr.digits))
                          (USERNAME_LENGTH - 4) ;
  mret (prefix +:+ "_" +:+ PyStr.join_chars suffix).

Definition _generate_password : Py string :=
  let chars := PyStr.ascii_letters +:+ PyStr.digits +:+ "!@#$%^&*" in
  cs ← Random.choices (PyStr.chars chars) PASSWORD_LENGTH ;
  mret (PyStr.join_chars cs).

Definition _generate_email (username : string) : Py string :=
  domain ← Random.choice "" DOMAINS ;
  mret (username +:+ "@" +:+ domain).

(** [if not v: v = gen()]. *)
Definition or_generate (v : option string) (gen : Py string) : Py string :=
  if falsy v then gen
  else match v with
       | Some s => mret s
       | None => gen
       end.

(** Lines 90-95 of [create_account]: the credentials. *)
Definition credentials (username password email : option string)
  : Py (string * string * string) :=
  username ← or_generate username _generate_username ;
  password ← or_generate password _generate_password ;
  email ← or_generate email (_generate_email username) ;
  mret (username, password, email).

(** Lines 98-100: the account id is formatted from [self.created + 1], read
    here, before the lock of line 102 is taken. *)
Definition identify (self : AccountCreator) (service : string)
  : Py (string * string * string) :=
  let account_id := service +:+ "_acc_" +:+ PyStr.format_07d (created self + 1) in
  creation_date ← Time.now_strftime ;
  user_agent ← Random.choice "" USER_AGENTS ;
  mret (account_id, creation_date, user_agent).

(** Lines 102-103: [with self.lock: self.created += 1]. *)
Definition count_created (self : AccountCreator) : AccountCreator :=
  {| created := created self + 1; delay := delay self |}.

(** Lines 105-114: the returned dict; the status is drawn while it is built. *)
Definition record (service account_id username password email
                   creation_date user_agent : string) : Py dict :=
  m ← Random.random ;
  mret [("service", service);
        ("account_id", account_id);
        ("username", username);
        ("password", password);
        ("email", email);
        ("created_at", creation_date);
        ("user_agent", user_agent);
        ("status", if Random.gt_one_tenth m then "active" else "pending")].

(** [AccountCreator.create_account], run without interruption. *)
Definition create_account (self : AccountCreator) (service : string)
    (username password email : option string)
  : Py (result (dict * AccountCreator)) :=
  if sleep_returns (delay self) then
    '(username, password, email) ← credentials username password email ;
    '(account_id, creation_date, user_agent) ← identify self service ;
    let self := count_created self in
    account ← record service account_id username password email
                     creation_date user_agent ;
    mret (Return (account, self))
  else mret (Raise (sleep_error (delay self))).

(** ** create_accounts (lines 149-191) *)

(** Where a worker thread stands.  A step is one critical section or one
    stretch of code between two of them; the values a thread holds between
    steps are its local variables. *)
Inductive pc : Type :=
| AtCheck                                   (* lines 163-166 *)
| AtCall                                    (* line 168, then lines 87-95 *)
| AtIdentify (username password email : string)                (* 98-100 *)
| AtCount (account_id username password email
           creation_date user_agent : string)                  (* 102-103 *)
| AtRecord (account_id username password email
            creation_date user_agent : string)                 (* 105-114 *)
| AtAppend (account : dict)                                    (* 169-170 *)
| AtProgress                                                   (* 172-173 *)
| Returned                                                     (* line 165 *)
| Died (exn : string).                        (* an exception left [worker] *)

(** What the workers share: the world, the creator and the list [accounts]. *)
Record Shared := {
  sh_world : World;
  sh_creator : AccountCreator;
  sh_accounts : list dict
}.

Definition with_world (s : Shared) (w : World) : Shared :=
  {| sh_world := w; sh_creator := sh_creator s; sh_accounts := sh_accounts s |}.

Definition len (accounts : list dict) : Z := Z.of_nat (List.length accounts).

(** One step of one worker.  The [target] assigned at line 166 is never read
    and has no counterpart here. *)
Definition worker_step (num_accounts : Z) (service : string) (p : pc) (s : Shared)
  : pc * Shared :=
  match p with
  | AtCheck =>
      if (len (sh_accounts s) >=? num_accounts)%Z then (Returned, s)
      else (AtCall, s)
  | AtCall =>
      if sleep_returns (delay (sh_creator s)) then
        let '((username, password, email), w) :=
          credentials None None None (sh_world s) in
        (AtIdentify username password email, with_world s w)
      else (Died (sleep_error (delay (sh_creator s))), s)
  | AtIdentify username password email =>
      let '((account_id, creation_date, user_agent), w) :=
        identify (sh_creator s) service (sh_world s) in
      (AtCount account_id username password email creation_date user_agent,
       with_world s w)
  | AtCount account_id username password email creation_date user_agent =>
      (AtRecord account_id username password email creation_date user_agent,
       {| sh_world := sh_world s;
          sh_creator := count_created (sh_creator s);
          sh_accounts := sh_accounts s |})
  | AtRecord account_id username password email creation_date user_agent =>
      let '(account, w) :=
        record service account_id username password email
               creation_date user_agent (sh_world s) in
      (AtAppend account, with_world s w)
  | AtAppend account =>
      (AtProgress,
       {| sh_world := sh_world s;
          sh_creator := sh_creator s;
          sh_accounts := sh_accounts s ++ [account] |})
  | AtProgress =>
      (AtCheck,
       with_world s
         (stdout_write (Fore.YELLOW +:+ PyStr.cr +:+ "Progress: "
                        +:+ PyStr.str_of_Z (len (sh_accounts s)) +:+ "/"
                        +:+ PyStr.str_of_Z num_accounts) (sh_world s)))
  | Returned => (Returned, s)
  | Died exn => (Died exn, s)
  end.

Definition terminated (p : pc) : bool :=
  match p with
  | Returned | Died _ => true
  | _ => false
  end.

(** The pool: the shared state and one program counter per thread. *)
Record Pool := { shared : Shared; workers : list pc }.

(** The thread numbered [i] takes a step (nothing happens when there is no
    such thread). *)
Definition pool_step (num_accounts : Z) (service : string) (i : nat) (c : Pool)
  : Pool :=
  match workers c !! i with
  | Some p =>
      let '(p', s') := worker_step num_accounts service p (shared c) in
      {| shared := s'; workers := <[i := p']> (workers c) |}
  | None => c
  end.

(** A schedule names, step after step, the thread that runs. *)
Definition run (num_accounts : Z) (service : string) (sched : list nat) (c : Pool)
  : Pool :=
  fold_left (fun c i => pool_step num_accounts service i c) sched c.

(** [json.dump]'s argument for the list [accounts]. *)
Definition json_of_account (account : dict) : json :=
  JObj (map (fun kv => (fst kv, JStr (snd kv))) account).

Definition json_of_accounts (accounts : list dict) : json :=
  JArr (map json_of_account accounts).

(** The pool [create_accounts] starts (lines 155-157 and 176-181): a fresh
    creator, no account, every worker at the top of its loop. *)
Definition initial_pool (delay : Q) (threads : Z) (w : World) : Pool :=
  {| shared := {| sh_world := w; sh_creator := AccountCreator_init delay;
                  sh_accounts := [] |};
     workers := replicate (Z.to_nat threads) AtCheck |}.

(** The three messages of [create_accounts] (lines 152, 159 and 191). *)
Definition refusal_line : string :=
  Fore.RED +:+ "[-] Safety limit exceeded! Max accounts: "
  +:+ PyStr.str_of_Z MAX_ACCOUNTS.

Definition opening_line (num_accounts : Z) (service : string) (threads : Z) : string :=
  Fore.CYAN +:+ PyStr.nl +:+ "[+] Creating "
  +:+ PyStr.str_of_Z num_accounts +:+ " " +:+ service
  +:+ " accounts with " +:+ PyStr.str_of_Z threads +:+ " threads...".

Definition closing_line (accounts : list dict) (output_file : string) : string :=
  Fore.GREEN +:+ PyStr.nl +:+ PyStr.nl +:+ "[+] Created "
  +:+ PyStr.str_of_Z (len accounts) +:+ " accounts. Saved to " +:+ output_file.

(** How a call of [create_accounts] under a schedule ends: it has returned,
    leaving a world, or the schedule stops while the main thread still waits
    in [join] for workers that have not terminated. *)
Inductive outcome : Type :=
| Completed (w : World)
| Joining (c : Pool).

Definition create_accounts (num_accounts : Z) (service output_file : string)
    (delay : Q) (threads : Z) (sched : list nat) (w : World) : outcome :=
  if (num_accounts >? MAX_ACCOUNTS)%Z then
    Completed (print refusal_line w)
  else
    let w := print (opening_line num_accounts service threads) w in
    let c := run num_accounts service sched (initial_pool delay threads w) in
    if forallb terminated (workers c) then
      let accounts := sh_accounts (shared c) in
      let w := write_file output_file (JsonFile (json_of_accounts accounts) 2)
                 (sh_world (shared c)) in
      Completed (print (closing_line accounts output_file) w)
    else Joining c.

(** The records a written output file holds. *)
Definition records (f : option file) : option (list json) :=
  match f with
  | Some (JsonFile (JArr items) _) => Some items
  | _ => None
  end.

(** The [account_id] of a record of the output. *)
Definition record_id (j : json) : option string :=
  match j with
  | JObj members =>
      match List.filter (fun kv => String.eqb (fst kv) "account_id") members with
      | (_, JStr v) :: _ => Some v
      | _ => None
      end
  | _ => None
  end.

(** ** generate_tokens (lines 129-147) *)

(** The text of a progress report: [done] out of [total]. *)
Definition progress_line (done total : Z) : string :=
  Fore.YELLOW +:+ PyStr.cr +:+ "Progress: "
  +:+ PyStr.str_of_Z done +:+ "/" +:+ PyStr.str_of_Z total.

(** The loop of lines 136-140 with [todo] iterations left, [i] being the
    value of the loop variable: one token, appended to [tokens], and one
    progress report per iteration. *)
Fixpoint token_loop (num_tokens : Z) (token_type : string) (todo : nat) (i : Z)
    (generator : TokenGenerator) (tokens : list string) (w : World)
  : TokenGenerator * list string * World :=
  match todo with
  | O => (generator, tokens, w)
  | S todo' =>
      let '((token, generator), w) := generate generator token_type w in
      let w := stdout_write (progress_line (i + 1) num_tokens) w in
      token_loop num_tokens token_type todo' (i + 1) generator
                 (tokens ++ [token]) w
  end.

(** What lines 143-145 write: every token followed by a line feed. *)
Fixpoint file_lines (tokens : list string) : string :=
  match tokens with
  | [] => ""
  | token :: rest => token +:+ PyStr.nl +:+ file_lines rest
  end.

(** [generate_tokens]; [range(num_tokens)] is empty for a count of zero or
    less.  The generator is local to the call. *)
Definition generate_tokens (num_tokens : Z) (token_type output_file : string)
    (w : World) : World :=
  let w := print (Fore.CYAN +:+ PyStr.nl +:+ "[+] Generating "
                  +:+ PyStr.str_of_Z num_tokens +:+ " " +:+ token_type
                  +:+ " tokens...") w in
  let '((generator, tokens), w) :=
    token_loop num_tokens token_type (Z.to_nat num_tokens) 0
               TokenGenerator_init [] w in
  let w := write_file output_file (TextFile (file_lines tokens)) w in
  print (Fore.GREEN +:+ PyStr.nl +:+ PyStr.nl +:+ "[+] Saved "
         +:+ PyStr.str_of_Z (Z.of_nat (length tokens))
         +:+ " tokens to " +:+ output_file) w.

(** ** Vocabulary of the statements *)

(** The world with the next raw outcome of the random generator set to [x]. *)
Definition with_next_raw (x : N) (w : World) : World :=
  match w with
  | Build_World rand rpos clock cpos out fs =>
      Build_World (fun n => if Nat.eqb n rpos then x else rand n)
                  rpos clock cpos out fs
  end.

Definition first_char (s : string) : option ascii :=
  match s with
  | EmptyString => None
  | String c _ => Some c
  end.

(** Of the positions [0 .. n-1] a draw from a population of [n] entries can
    fall on, those for which the first character of the token is [c]. *)
Definition positions_giving (token_of : N -> string) (n : nat) (c : ascii) : list nat :=
  List.filter
    (fun i => match first_char (token_of (N.of_nat i)) with
              | Some d => Ascii.eqb d c
              | None => false
              end)
    (seq 0 n).


(** A world to run examples in. *)
Definition sample_world : World :=
  {| w_rand := fun n => N.of_nat (7 * n + 3);
     w_rpos := 0;
     w_clock := fun n => {| epoch := 1767225600 + Z.of_nat n;
                            local_time := "2026-01-01 00:00:00" |};
     w_cpos := 0;
     w_stdout := [];
     w_fs := ∅ |}.

(** A worker that holds no record in the making: it is about to check the
    length of [accounts], or it has returned. *)
Definition idle (p : pc) : Prop := p = AtCheck \/ p = Returned.

(** Two workers, one account asked for: both pass the check of line 164
    while [accounts] is empty, then each runs its iteration to the end. *)
Definition overshoot_schedule : list nat :=
  [0; 1] ++ repeat 0 7 ++ repeat 1 7.

(** Two workers, two accounts asked for: both pass the check, both enter
    [create_account], both read [self.created] at line 98 before either
    takes the lock of line 102; then each finishes its iteration and both
    find the target met. *)
Definition collision_schedule : list nat :=
  [0; 1] ++ [0; 1] ++ [0; 1] ++ repeat 0 4 ++ repeat 1 4 ++ [0; 1].

(** A worker between its check and its append: it has passed the check of
    line 164 and the record it is making is not in [accounts] yet. *)
Definition in_flight (p : pc) : bool :=
  match p with
  | AtCall | AtIdentify _ _ _ | AtCount _ _ _ _ _ _
  | AtRecord _ _ _ _ _ _ | AtAppend _ => true
  | AtCheck | AtProgress | Returned | Died _ => false
  end.

Definition count_in_flight (ps : list pc) : nat :=
  length (List.filter in_flight ps).

(** The most records a pool of [pool_size] workers asked for [num_accounts]
    accounts can come to hold. *)
Definition most_accounts (num_accounts : Z) (pool_size : nat) : Z :=
  if (num_accounts <=? 0)%Z then 0%Z
  else (num_accounts + Z.of_nat pool_size - 1)%Z.

(** Every worker that has returned saw the target met, and none has died. *)
Definition settled (num_accounts : Z) (c : Pool) : Prop :=
  sleep_returns (delay (sh_creator (shared c))) = true
  /\ Forall (fun p => (p = Returned ->
                       (num_accounts <= len (sh_accounts (shared c)))%Z)
                      /\ forall exn, p <> Died exn)
            (workers c).

(** From [w] to [w'] the random generator has been asked [draws] times and
    the clock read [ticks] times, and nothing else has happened: the tapes,
    the standard output and the files are those of [w]. *)
Definition advanced (draws ticks : nat) (w w' : World) : Prop :=
  w_rand w' = w_rand w /\ w_rpos w' = w_rpos w + draws
  /\ w_clock w' = w_clock w /\ w_cpos w' = w_cpos w + ticks
  /\ w_stdout w' = w_stdout w /\ w_fs w' = w_fs w.

(** How many times [generate] asks the random generator and reads the
    clock, kind by kind. *)
Definition consumption (token_type : string) : nat * nat :=
  if String.eqb token_type "hex" then (64, 0)
  else if String.eqb token_type "numeric" then (64, 0)
  else if String.eqb token_type "uuid" then (32, 0)
  else if String.eqb token_type "jwt" then (73, 2)
  else (64, 0).

(** The character set of the kinds that draw [TOKEN_LENGTH] characters. *)
Definition plain_charset (token_type : string) : ascii -> bool :=
  if String.eqb token_type "hex" then PyStr.is_upper_hex
  else if String.eqb token_type "numeric" then PyStr.is_digit
  else PyStr.is_alnum.

(** The characters of [string.hexdigits], in either case. *)
Definition is_hexdigit (c : ascii) : bool :=
  PyStr.is_lower_hex c || PyStr.is_upper_hex c.

(** The characters [_generate_password] draws from. *)
Definition is_password_char (c : ascii) : bool :=
  PyStr.is_alnum c
  || existsb (Ascii.eqb c) (PyStr.chars "!@#$%^&*").


(** A worker that has counted its account in [self.created] and has not
    appended the record yet. *)
Definition counted (p : pc) : bool :=
  match p with
  | AtRecord _ _ _ _ _ _ | AtAppend _ => true
  | _ => false
  end.


(** The world a call of [create_accounts] leaves when it has returned
    ([w] itself while the main thread is still waiting). *)
Definition world_left (o : outcome) (w : World) : World :=
  match o with
  | Completed w' => w'
  | Joining _ => w
  end.

(** How far a worker is on the way that ends at a [time.sleep] refusing the
    delay: at its check, at the call, dead. *)
Definition doom_rank (p : pc) : option nat :=
  match p with
  | AtCheck => Some 0
  | AtCall => Some 1
  | Died _ => Some 2
  | _ => None
  end.

(** * Properties *)

(** ** Strings and draws *)

Ltac run_py :=
  unfold mbind, Py_bind, bind, mret, Py_ret, ret, value, world in *; simpl in *.

Lemma bind_eq {A B} (m : Py A) (k : A -> Py B) (w : World) :
  (m ≫= k) w = k (value (m w)) (world (m w)).
Proof.
  unfold mbind, Py_bind, bind, value, world. destruct (m w). reflexivity.
Qed.

Lemma ret_eq {A} (a : A) (w : World) : (mret a : Py A) w = (a, w).
Proof. reflexivity. Qed.

Lemma value_pair {A} (a : A) (w : World) : value (a, w) = a.
Proof. reflexivity. Qed.

Lemma world_pair {A} (a : A) (w : World) : world (a, w) = w.
Proof. reflexivity. Qed.

(** Unfolds a sequence of binds into the values and worlds of its steps. *)
Ltac step_py :=
  cbv beta iota zeta;
  repeat (first [rewrite bind_eq | rewrite ret_eq
                | rewrite value_pair | rewrite world_pair];
          cbv beta iota zeta).

Lemma length_join_chars (cs : list ascii) :
  String.length (PyStr.join_chars cs) = length cs.
Proof.
  unfold PyStr.join_chars. induction cs as [|c cs IH]; simpl; congruence.
Qed.

Lemma forallb_join_chars (p : ascii -> bool) (cs : list ascii) :
  PyStr.forallb_chars p (PyStr.join_chars cs) = forallb p cs.
Proof.
  unfold PyStr.join_chars. induction cs as [|c cs IH]; simpl; congruence.
Qed.

Lemma app_cons (c : ascii) (s t : string) :
  String c s +:+ t = String c (s +:+ t).
Proof. reflexivity. Qed.

Lemma app_nil (t : string) : "" +:+ t = t.
Proof. reflexivity. Qed.

Lemma length_app_string (s t : string) :
  String.length (s +:+ t) = String.length s + String.length t.
Proof.
  induction s as [|c s IH]; [reflexivity|].
  rewrite app_cons. simpl. congruence.
Qed.

Lemma forallb_chars_app (p : ascii -> bool) (s t : string) :
  PyStr.forallb_chars p (s +:+ t)
  = PyStr.forallb_chars p s && PyStr.forallb_chars p t.
Proof.
  induction s as [|c s IH]; [reflexivity|].
  rewrite app_cons. simpl. rewrite IH. apply andb_assoc.
Qed.

Lemma randbelow_lt (n : nat) (w : World) :
  n <> 0 -> value (Random.randbelow n w) < n.
Proof.
  intros Hn. destruct w as [rand rpos clock cpos out fs].
  unfold Random.randbelow, Random.raw. run_py.
  pose proof (N.mod_lt (rand rpos) (N.of_nat n)). lia.
Qed.

Lemma choice_In {A} (dflt : A) (seq : list A) (w : World) :
  seq <> [] -> In (value (Random.choice dflt seq w)) seq.
Proof.
  intros Hne. unfold Random.choice.
  pose proof (randbelow_lt (length seq) w) as Hlt.
  run_py. destruct (Random.randbelow (length seq) w) as [i w'] eqn:E.
  simpl in *. apply nth_In. apply Hlt. destruct seq; simpl; congruence.
Qed.

Lemma choices_S (population : list ascii) (k : nat) (w : World) :
  Random.choices population (S k) w
  = let '(c, w1) := Random.choice "000"%char population w in
    let '(cs, w2) := Random.choices population k w1 in
    (c :: cs, w2).
Proof. reflexivity. Qed.

Lemma choices_length (population : list ascii) (k : nat) (w : World) :
  length (value (Random.choices population k w)) = k.
Proof.
  revert w. induction k as [|k IH]; intros w; [reflexivity|].
  rewrite choices_S.
  destruct (Random.choice "000"%char population w) as [c w1].
  specialize (IH w1). destruct (Random.choices population k w1) as [cs w2].
  unfold value in *. simpl in *. congruence.
Qed.

Lemma choices_forallb (p : ascii -> bool) (population : list ascii) (k : nat)
    (w : World) :
  population <> [] -> forallb p population = true ->
  forallb p (value (Random.choices population k w)) = true.
Proof.
  intros Hne Hall. revert w. induction k as [|k IH]; intros w; [reflexivity|].
  pose proof (choice_In "000"%char population w Hne) as Hin.
  rewrite choices_S.
  destruct (Random.choice "000"%char population w) as [c w1].
  specialize (IH w1). destruct (Random.choices population k w1) as [cs w2].
  unfold value in *. simpl in *. rewrite IH, andb_true_r.
  rewrite forallb_forall in Hall. auto.
Qed.

Lemma choices_first (population : list ascii) (k : nat) (x : N) (w : World) :
  first_char (PyStr.join_chars
                (value (Random.choices population (S k) (with_next_raw x w))))
  = Some (nth (N.to_nat (x mod N.of_nat (length population))) population "000"%char).
Proof.
  destruct w as [rand rpos clock cpos out fs].
  rewrite choices_S. unfold Random.choice, Random.randbelow, Random.raw.
  run_py. rewrite Nat.eqb_refl.
  match goal with |- context [Random.choices population k ?w1] =>
    destruct (Random.choices population k w1) as [cs w2] end.
  reflexivity.
Qed.

Lemma split_from_piece (p : ascii -> bool) (sep : ascii) (g : string) :
  p sep = false -> PyStr.forallb_chars p g = true ->
  forall cur rest,
    PyStr.split_from sep cur (g +:+ String sep rest)
    = string_of_list_ascii (rev cur ++ PyStr.chars g) :: PyStr.split_from sep [] rest.
Proof.
  intros Hsep. induction g as [|c g IH]; intros Hall cur rest.
  - rewrite app_nil. simpl. rewrite Ascii.eqb_refl, app_nil_r. reflexivity.
  - simpl in Hall. apply andb_true_iff in Hall as [Hc Hg].
    rewrite app_cons. simpl.
    destruct (Ascii.eqb c sep) eqn:E.
    + apply Ascii.eqb_eq in E. congruence.
    + rewrite (IH Hg). simpl. rewrite <- app_assoc. reflexivity.
Qed.

Lemma split_from_last (p : ascii -> bool) (sep : ascii) (g : string) :
  p sep = false -> PyStr.forallb_chars p g = true ->
  forall cur,
    PyStr.split_from sep cur g = [string_of_list_ascii (rev cur ++ PyStr.chars g)].
Proof.
  intros Hsep. induction g as [|c g IH]; intros Hall cur.
  - simpl. rewrite app_nil_r. reflexivity.
  - simpl in Hall. apply andb_true_iff in Hall as [Hc Hg]. simpl.
    destruct (Ascii.eqb c sep) eqn:E.
    + apply Ascii.eqb_eq in E. congruence.
    + rewrite (IH Hg). simpl. rewrite <- app_assoc. reflexivity.
Qed.

Lemma split_piece (p : ascii -> bool) (sep : ascii) (g rest : string) :
  p sep = false -> PyStr.forallb_chars p g = true ->
  PyStr.split sep (g +:+ String sep "" +:+ rest) = g :: PyStr.split sep rest.
Proof.
  intros Hsep Hall. unfold PyStr.split.
  change (String sep "" +:+ rest) with (String sep rest).
  rewrite (split_from_piece p sep g Hsep Hall). simpl.
  unfold PyStr.chars. rewrite string_of_list_ascii_of_string. reflexivity.
Qed.

Lemma split_last (p : ascii -> bool) (sep : ascii) (g : string) :
  p sep = false -> PyStr.forallb_chars p g = true ->
  PyStr.split sep g = [g].
Proof.
  intros Hsep Hall. unfold PyStr.split.
  rewrite (split_from_last p sep g Hsep Hall). simpl.
  unfold PyStr.chars. rewrite string_of_list_ascii_of_string. reflexivity.
Qed.

(** ** TokenGenerator *)

(** [generate], kind by kind: the token and the world come from the draws
    of the kind, the generator has counted one call. *)
Lemma generate_hex_eq (self : TokenGenerator) (w : World) :
  generate self "hex" w
  = ((PyStr.join_chars
        (value (Random.choices (PyStr.chars (PyStr.upper PyStr.hexdigits))
                               TOKEN_LENGTH w)),
      {| generated := generated self + 1 |}),
     world (Random.choices (PyStr.chars (PyStr.upper PyStr.hexdigits))
                           TOKEN_LENGTH w)).
Proof.
  unfold generate. rewrite String.eqb_refl. step_py. cbn [fst snd value world]. reflexivity.
Qed.

Lemma generate_numeric_eq (self : TokenGenerator) (w : World) :
  generate self "numeric" w
  = ((PyStr.join_chars
        (value (Random.choices (PyStr.chars PyStr.digits) TOKEN_LENGTH w)),
      {| generated := generated self + 1 |}),
     world (Random.choices (PyStr.chars PyStr.digits) TOKEN_LENGTH w)).
Proof.
  unfold generate.
  replace (String.eqb "numeric" "hex") with false by reflexivity.
  rewrite String.eqb_refl. step_py. cbn [fst snd value world]. reflexivity.
Qed.

Lemma generate_else_eq (self : TokenGenerator) (token_type : string) (w : World) :
  token_type <> "hex" -> token_type <> "numeric" ->
  token_type <> "uuid" -> token_type <> "jwt" ->
  generate self token_type w
  = ((PyStr.join_chars
        (value (Random.choices (PyStr.chars (PyStr.ascii_letters +:+ PyStr.digits))
                               TOKEN_LENGTH w)),
      {| generated := generated self + 1 |}),
     world (Random.choices (PyStr.chars (PyStr.ascii_letters +:+ PyStr.digits))
                           TOKEN_LENGTH w)).
Proof.
  intros H1 H2 H3 H4. unfold generate.
  apply String.eqb_neq in H1, H2, H3, H4. rewrite H1, H2, H3, H4.
  step_py. cbn [fst snd value world]. reflexivity.
Qed.

Lemma generate_uuid_eq (self : TokenGenerator) (w : World) :
  generate self "uuid" w
  = ((value (_generate_uuid w), {| generated := generated self + 1 |}),
     world (_generate_uuid w)).
Proof.
  unfold generate.
  replace (String.eqb "uuid" "hex") with false by reflexivity.
  replace (String.eqb "uuid" "numeric") with false by reflexivity.
  rewrite String.eqb_refl. step_py. cbn [fst snd value world]. reflexivity.
Qed.

Lemma paired_eq {A B} (m : Py A) (b : B) (w : World) :
  (m ≫= (fun a => mret (a, b))) w = ((value (m w), b), world (m w)).
Proof. step_py. reflexivity. Qed.

(** Whatever the kind, the generator of the result is the one of the call
    with its counter one higher, and the rest does not mention it. *)
Lemma generate_eq (self : TokenGenerator) (token_type : string) (w : World) :
  exists body : Py string,
    forall g : TokenGenerator,
      generate g token_type w
      = ((value (body w), {| generated := generated g + 1 |}), world (body w)).
Proof.
  unfold generate. eexists. intros g. cbv zeta. apply paired_eq.
Qed.

(** What holds of C4: tokens of the three fixed-length kinds have 64
    characters, all of them in the kind's character set. *)
Lemma generate_fixed_length_kinds (self : TokenGenerator) (w : World) :
  (String.length (fst (value (generate self "alphanumeric" w))) = 64
   /\ PyStr.forallb_chars PyStr.is_alnum
        (fst (value (generate self "alphanumeric" w))) = true)
  /\ (String.length (fst (value (generate self "hex" w))) = 64
      /\ PyStr.forallb_chars PyStr.is_upper_hex
           (fst (value (generate self "hex" w))) = true)
  /\ (String.length (fst (value (generate self "numeric" w))) = 64
      /\ PyStr.forallb_chars PyStr.is_digit
           (fst (value (generate self "numeric" w))) = true).
Proof.
  rewrite generate_hex_eq, generate_numeric_eq.
  rewrite (generate_else_eq self "alphanumeric") by discriminate.
  cbn [fst snd value world].
  rewrite !length_join_chars, !forallb_join_chars, !choices_length.
  repeat split; apply choices_forallb; solve [discriminate | reflexivity].
Qed.

(** The populations of the alphanumeric and numeric kinds list every
    character once, so a draw of a position, all positions being equally
    likely, is a uniform draw of a character; the hex population does not. *)
Lemma alphanumeric_population_NoDup :
  List.NoDup (PyStr.chars (PyStr.ascii_letters +:+ PyStr.digits)).
Proof.
  apply (NoDup_count_occ' ascii_dec). intros c Hc.
  vm_compute in Hc.
  repeat (destruct Hc as [<-|Hc]; [vm_compute; reflexivity|]).
  destruct Hc.
Qed.

Lemma numeric_population_NoDup : List.NoDup (PyStr.chars PyStr.digits).
Proof.
  apply (NoDup_count_occ' ascii_dec). intros c Hc.
  vm_compute in Hc.
  repeat (destruct Hc as [<-|Hc]; [vm_compute; reflexivity|]).
  destruct Hc.
Qed.

Lemma hex_population :
  PyStr.upper PyStr.hexdigits = "0123456789ABCDEFABCDEF"
  /\ length (PyStr.chars (PyStr.upper PyStr.hexdigits)) = 22
  /\ count_occ ascii_dec (PyStr.chars (PyStr.upper PyStr.hexdigits)) "A"%char = 2
  /\ count_occ ascii_dec (PyStr.chars (PyStr.upper PyStr.hexdigits)) "0"%char = 1.
Proof. repeat split. Qed.

(** The first character of a hex token is the entry of the population at
    the position drawn first. *)
Lemma generate_hex_first (self : TokenGenerator) (x : N) (w : World) :
  first_char (fst (value (generate self "hex" (with_next_raw x w))))
  = Some (nth (N.to_nat
                 (x mod N.of_nat
                          (length (PyStr.chars (PyStr.upper PyStr.hexdigits)))))
              (PyStr.chars (PyStr.upper PyStr.hexdigits)) "000"%char).
Proof.
  rewrite generate_hex_eq. cbn [fst snd value world].
  assert (E : TOKEN_LENGTH = S 63) by reflexivity. rewrite E.
  apply choices_first.
Qed.

Lemma positions_giving_ext (f g : N -> string) (n : nat) (c : ascii) :
  (forall x, first_char (f x) = first_char (g x)) ->
  positions_giving f n c = positions_giving g n c.
Proof.
  intros Hfg. unfold positions_giving. apply filter_ext.
  intros i. rewrite Hfg. reflexivity.
Qed.

(** C4, at the hex kind.  The claim says that every character of a hex token
    is drawn uniformly from the 16 hex digits.  [generate] draws a position
    in [string.hexdigits.upper()], which has 22 entries, the letters A-F
    twice: of the 22 equally likely positions two give the letter A and one
    gives the digit 0, so a letter is twice as likely as a digit. *)
Theorem generate_hex_favours_letters (self : TokenGenerator) (w : World) :
  length (positions_giving
            (fun x => fst (value (generate self "hex" (with_next_raw x w))))
            22 "A"%char) = 2
  /\ length (positions_giving
               (fun x => fst (value (generate self "hex" (with_next_raw x w))))
               22 "0"%char) = 1.
Proof.
  split.
  all: rewrite (positions_giving_ext _
         (fun x => String (nth (N.to_nat (x mod 22))
                               (PyStr.chars "0123456789ABCDEFABCDEF") "000"%char)
                          "")
         22 _ (fun x => generate_hex_first self x w)).
  all: vm_compute; reflexivity.
Qed.

(** C5.  A kind that is none of hex, numeric, uuid and jwt takes the final
    [else] of [generate]: the call does exactly what the call with
    "alphanumeric" does (same token, same generator, same world) and the
    token has 64 characters, all ASCII letters or digits.  [generate] has no
    failing path. *)
Theorem generate_unknown_kind_is_alphanumeric
    (self : TokenGenerator) (token_type : string) (w : World) :
  token_type <> "hex" -> token_type <> "numeric" ->
  token_type <> "uuid" -> token_type <> "jwt" ->
  generate self token_type w = generate self "alphanumeric" w
  /\ String.length (fst (value (generate self token_type w))) = 64
  /\ PyStr.forallb_chars PyStr.is_alnum
       (fst (value (generate self token_type w))) = true.
Proof.
  intros H1 H2 H3 H4.
  assert (E : generate self token_type w = generate self "alphanumeric" w).
  { rewrite (generate_else_eq self token_type w H1 H2 H3 H4).
    rewrite (generate_else_eq self "alphanumeric") by discriminate.
    reflexivity. }
  split; [exact E|]. rewrite E.
  exact (proj1 (generate_fixed_length_kinds self w)).
Qed.

Lemma generate_unknown_kind_witness :
  ("base64" <> "hex" /\ "base64" <> "numeric"
   /\ "base64" <> "uuid" /\ "base64" <> "jwt")
  /\ (generate TokenGenerator_init "base64" sample_world
      = generate TokenGenerator_init "alphanumeric" sample_world
      /\ String.length
           (fst (value (generate TokenGenerator_init "base64" sample_world))) = 64
      /\ PyStr.forallb_chars PyStr.is_alnum
           (fst (value (generate TokenGenerator_init "base64" sample_world))) = true).
Proof.
  split.
  - repeat split; discriminate.
  - apply (generate_unknown_kind_is_alphanumeric
             TokenGenerator_init "base64" sample_world); discriminate.
Defined.

Lemma lower_hex_population :
  PyStr.chars (PyStr.lower PyStr.hexdigits) <> []
  /\ forallb PyStr.is_lower_hex (PyStr.chars (PyStr.lower PyStr.hexdigits)) = true.
Proof. split; [discriminate | reflexivity]. Qed.

Lemma join_five (sep a b c d e : string) :
  PyStr.join sep [a; b; c; d; e]
  = a +:+ sep +:+ b +:+ sep +:+ c +:+ sep +:+ d +:+ sep +:+ e.
Proof. reflexivity. Qed.

(** The shape of what [_generate_uuid] returns. *)
Lemma _generate_uuid_groups (w : World) :
  exists g1 g2 g3 g4 g5 : string,
    value (_generate_uuid w)
    = g1 +:+ "-" +:+ g2 +:+ "-" +:+ g3 +:+ "-" +:+ g4 +:+ "-" +:+ g5
    /\ (String.length g1 = 8 /\ String.length g2 = 4 /\ String.length g3 = 4
        /\ String.length g4 = 4 /\ String.length g5 = 12)
    /\ (PyStr.forallb_chars PyStr.is_lower_hex g1 = true
        /\ PyStr.forallb_chars PyStr.is_lower_hex g2 = true
        /\ PyStr.forallb_chars PyStr.is_lower_hex g3 = true
        /\ PyStr.forallb_chars PyStr.is_lower_hex g4 = true
        /\ PyStr.forallb_chars PyStr.is_lower_hex g5 = true).
Proof.
  destruct lower_hex_population as [Hne Hhex].
  unfold _generate_uuid. step_py. rewrite join_five.
  eexists _, _, _, _, _. split; [reflexivity|].
  rewrite !length_join_chars, !forallb_join_chars, !choices_length.
  repeat split; apply choices_forallb; assumption.
Qed.

(** C7.  A token of kind uuid splits at its hyphens into exactly five groups,
    of 8, 4, 4, 4 and 12 characters, every character a lowercase hexadecimal
    digit. *)
Theorem generate_uuid_shape (self : TokenGenerator) (w : World) :
  exists g1 g2 g3 g4 g5 : string,
    fst (value (generate self "uuid" w))
    = g1 +:+ "-" +:+ g2 +:+ "-" +:+ g3 +:+ "-" +:+ g4 +:+ "-" +:+ g5
    /\ PyStr.split "-" (fst (value (generate self "uuid" w))) = [g1; g2; g3; g4; g5]
    /\ map String.length [g1; g2; g3; g4; g5] = [8; 4; 4; 4; 12]
    /\ Forall (fun g => PyStr.forallb_chars PyStr.is_lower_hex g = true)
              [g1; g2; g3; g4; g5].
Proof.
  destruct (_generate_uuid_groups w)
    as (g1 & g2 & g3 & g4 & g5 & Heq & (L1 & L2 & L3 & L4 & L5)
        & (A1 & A2 & A3 & A4 & A5)).
  exists g1, g2, g3, g4, g5.
  assert (Htok : fst (value (generate self "uuid" w))
                 = g1 +:+ "-" +:+ g2 +:+ "-" +:+ g3 +:+ "-" +:+ g4 +:+ "-" +:+ g5).
  { rewrite generate_uuid_eq. exact Heq. }
  split; [exact Htok|]. split; [|split].
  - rewrite Htok.
    assert (Hsep : PyStr.is_lower_hex "-" = false) by reflexivity.
    rewrite !(split_piece PyStr.is_lower_hex) by assumption.
    rewrite (split_last PyStr.is_lower_hex) by assumption.
    reflexivity.
  - simpl. congruence.
  - repeat constructor; assumption.
Qed.

(** C8.  Whatever the kind, [generate] leaves the generator with its counter
    one higher, and neither the token nor the world after the call depends
    on the generator the call started from. *)
Theorem generate_counts_and_ignores_counter
    (self : TokenGenerator) (token_type : string) (w : World) :
  generated (snd (value (generate self token_type w))) = (generated self + 1)%Z
  /\ forall other : TokenGenerator,
       fst (value (generate other token_type w))
       = fst (value (generate self token_type w))
       /\ world (generate other token_type w) = world (generate self token_type w).
Proof.
  destruct (generate_eq self token_type w) as [body Hbody].
  split.
  - rewrite Hbody. reflexivity.
  - intros other. rewrite (Hbody other), (Hbody self). split; reflexivity.
Qed.

(** ** AccountCreator *)


Lemma lower_alnum_population :
  PyStr.chars (PyStr.ascii_lowercase +:+ PyStr.digits) <> []
  /\ forallb PyStr.is_lower_alnum
       (PyStr.chars (PyStr.ascii_lowercase +:+ PyStr.digits)) = true.
Proof. split; [discriminate | reflexivity]. Qed.

(** The shape of one generated username. *)
Lemma _generate_username_parts (w : World) :
  exists prefix suffix : string,
    value (_generate_username w) = prefix +:+ "_" +:+ suffix
    /\ In prefix ["user"; "admin"; "test"; "demo"; "temp"]
    /\ String.length suffix = USERNAME_LENGTH - 4
    /\ PyStr.forallb_chars PyStr.is_lower_alnum suffix = true.
Proof.
  destruct lower_alnum_population as [Hne Hall].
  unfold _generate_username. step_py.
  eexists _, _. split; [reflexivity|].
  rewrite length_join_chars, forallb_join_chars, choices_length.
  repeat split.
  - apply choice_In. discriminate.
  - apply choices_forallb; assumption.
Qed.

(** C6.  A generated username is a prefix from the five, an underscore and a
    suffix of [USERNAME_LENGTH - 4 = 4] lowercase letters or digits, whatever
    the prefix; it has 10 characters when the prefix is "admin" and 9
    otherwise, never [USERNAME_LENGTH = 8], and both lengths occur. *)
Theorem _generate_username_shape :
  (forall w : World,
     exists prefix suffix : string,
       value (_generate_username w) = prefix +:+ "_" +:+ suffix
       /\ In prefix ["user"; "admin"; "test"; "demo"; "temp"]
       /\ String.length suffix = USERNAME_LENGTH - 4
       /\ String.length suffix = 4
       /\ PyStr.forallb_chars PyStr.is_lower_alnum suffix = true
       /\ String.length (value (_generate_username w))
          = (if String.eqb prefix "admin" then 10 else 9)
       /\ String.length (value (_generate_username w)) <> USERNAME_LENGTH)
  /\ (exists w : World, String.length (value (_generate_username w)) = 9)
  /\ (exists w : World, String.length (value (_generate_username w)) = 10).
Proof.
  split; [|split].
  - intros w.
    destruct (_generate_username_parts w) as (prefix & suffix & Heq & Hin & Hlen & Hall).
    exists prefix, suffix.
    assert (Htotal : String.length (value (_generate_username w))
                     = (if String.eqb prefix "admin" then 10 else 9)).
    { rewrite Heq, !length_app_string, Hlen.
      simpl in Hin. destruct Hin as [<-|[<-|[<-|[<-|[<-|[]]]]]]; reflexivity. }
    repeat split; try assumption.
    rewrite Htotal. unfold USERNAME_LENGTH.
    destruct (String.eqb prefix "admin"); discriminate.
  - exists sample_world. vm_compute. reflexivity.
  - exists (with_next_raw 1 sample_world). vm_compute. reflexivity.
Qed.





(** [time.sleep] returns exactly for a length from 0 to just under
    2^63 - 512 nanoseconds. *)
Lemma sleep_returns_iff (secs : Q) :
  sleep_returns secs = true
  <-> (0 <= secs /\ secs * inject_Z (10 ^ 9) < inject_Z (2 ^ 63 - 512))%Q.
Proof.
  unfold sleep_returns, sleep_nanoseconds.
  rewrite andb_true_iff, negb_true_iff, Qle_bool_iff.
  assert (Hpos : (0 <= secs * inject_Z (10 ^ 9) <-> 0 <= secs)%Q).
  { unfold Qle, Qmult. simpl. split; intros H; nia. }
  rewrite Hpos. split; intros [H1 H2]; (split; [exact H1|]).
  - apply Qnot_le_lt. intros Hle. apply Qle_bool_iff in Hle. congruence.
  - destruct (Qle_bool _ _) eqn:E; [|reflexivity].
    apply Qle_bool_iff in E. exfalso. exact (Qlt_not_le _ _ H2 E).
Qed.

(** Ten thousand million seconds are too long a sleep, and a negative length
    of that size is out of range as well; half a second is slept. *)
Lemma sleep_returns_examples :
  sleep_returns (1 # 2) = true
  /\ (sleep_returns (inject_Z (10 ^ 10)) = false
      /\ sleep_error (inject_Z (10 ^ 10)) = "OverflowError")
  /\ (sleep_returns (- inject_Z (10 ^ 10)) = false
      /\ sleep_error (- inject_Z (10 ^ 10)) = "OverflowError")
  /\ (sleep_returns (-1 # 2) = false /\ sleep_error (-1 # 2) = "ValueError").
Proof. vm_compute. repeat split. Qed.


(** Run without interruption, [create_account] numbers the record with the
    counter it finds plus one and leaves the counter one higher. *)
Lemma create_account_numbers
    (self : AccountCreator) (service : string)
    (username password email : option string) (w : World) :
  sleep_returns (delay self) = true ->
  exists account : dict,
    value (create_account self service username password email w)
    = Return (account, count_created self)
    /\ dict_get "account_id" account
       = Some (service +:+ "_acc_" +:+ PyStr.format_07d (created self + 1)).
Proof.
  intros Hsleep. unfold create_account. rewrite Hsleep.
  unfold credentials, identify, record. step_py.
  eexists. split; reflexivity.
Qed.

(** ** create_accounts *)

(** Below the ceiling, once every worker has terminated, the call writes the
    accounts and returns. *)
Lemma create_accounts_joined (num_accounts : Z) (service output_file : string)
    (delay : Q) (threads : Z) (sched : list nat) (w : World) :
  (num_accounts <= MAX_ACCOUNTS)%Z ->
  let c := run num_accounts service sched
             (initial_pool delay threads
                (print (opening_line num_accounts service threads) w)) in
  forallb terminated (workers c) = true ->
  create_accounts num_accounts service output_file delay threads sched w
  = Completed
      (print (closing_line (sh_accounts (shared c)) output_file)
         (write_file output_file
            (JsonFile (json_of_accounts (sh_accounts (shared c))) 2)
            (sh_world (shared c)))).
Proof.
  intros Hle c Hterm. unfold create_accounts.
  replace (num_accounts >? MAX_ACCOUNTS)%Z with false by (symmetry; lia).
  fold c. rewrite Hterm. reflexivity.
Qed.

Lemma records_written (accounts : list dict) (output_file text : string)
    (w : World) :
  records (w_fs (print text
                   (write_file output_file
                      (JsonFile (json_of_accounts accounts) 2) w))
           !! output_file)
  = Some (map json_of_account accounts).
Proof.
  destruct w as [rand rpos clock cpos out fs]. simpl.
  rewrite lookup_insert_eq. reflexivity.
Qed.

(** C3.  Above the ceiling the call prints the refusal and returns: no pool
    is built, whatever the number of threads and the schedule; the files,
    the random generator and the clock are as they were, and the only
    output is the line naming the limit. *)
Theorem create_accounts_refuses_above_ceiling
    (num_accounts : Z) (service output_file : string) (delay : Q) (threads : Z)
    (sched : list nat) (w : World) :
  (num_accounts > 1000)%Z ->
  exists w' : World,
    create_accounts num_accounts service output_file delay threads sched w
    = Completed w'
    /\ w_fs w' = w_fs w
    /\ w_rpos w' = w_rpos w
    /\ w_cpos w' = w_cpos w
    /\ w_stdout w'
       = (w_stdout w
          ++ [Fore.RED +:+ "[-] Safety limit exceeded! Max accounts: 1000"
              +:+ PyStr.nl])%list.
Proof.
  intros Hgt. exists (print refusal_line w).
  unfold create_accounts, MAX_ACCOUNTS.
  replace (num_accounts >? 1000)%Z with true by (symmetry; lia).
  destruct w as [rand rpos clock cpos out fs].
  repeat split.
Qed.

Lemma create_accounts_refuses_witness :
  (1001 > 1000)%Z
  /\ exists w' : World,
       create_accounts 1001 "custom" "accounts.json" (1 # 2) 5 [0; 1; 2; 3; 4]
                       sample_world
       = Completed w'
       /\ w_fs w' = w_fs sample_world
       /\ w_rpos w' = w_rpos sample_world
       /\ w_cpos w' = w_cpos sample_world
       /\ w_stdout w'
          = (w_stdout sample_world
             ++ [Fore.RED +:+ "[-] Safety limit exceeded! Max accounts: 1000"
                 +:+ PyStr.nl])%list.
Proof.
  split; [reflexivity|].
  apply (create_accounts_refuses_above_ceiling
           1001 "custom" "accounts.json" (1 # 2) 5 [0; 1; 2; 3; 4] sample_world).
  reflexivity.
Defined.

(** With nothing to create, the check of line 164 sends a worker straight to
    its return. *)
Lemma worker_step_nothing_to_create (num_accounts : Z) (service : string)
    (s : Shared) :
  (num_accounts <= 0)%Z ->
  worker_step num_accounts service AtCheck s = (Returned, s).
Proof.
  intros Hle. simpl. unfold len.
  replace (Z.of_nat (length (sh_accounts s)) >=? num_accounts)%Z with true
    by (symmetry; rewrite Z.geb_leb; apply Z.leb_le; lia).
  reflexivity.
Qed.

Lemma pool_step_idle (num_accounts : Z) (service : string) (i : nat) (c : Pool) :
  (num_accounts <= 0)%Z -> Forall idle (workers c) ->
  shared (pool_step num_accounts service i c) = shared c
  /\ Forall idle (workers (pool_step num_accounts service i c))
  /\ length (workers (pool_step num_accounts service i c)) = length (workers c)
  /\ (i < length (workers c) ->
      workers (pool_step num_accounts service i c) !! i = Some Returned)
  /\ (forall j, workers c !! j = Some Returned ->
        workers (pool_step num_accounts service i c) !! j = Some Returned).
Proof.
  intros Hle Hidle. unfold pool_step.
  destruct (workers c !! i) as [p|] eqn:Hp.
  - assert (Hstep : worker_step num_accounts service p (shared c)
                    = (Returned, shared c)).
    { assert (Hp' : idle p).
      { eapply Forall_forall; [exact Hidle|].
        eapply list_elem_of_lookup_2. exact Hp. }
      destruct Hp' as [-> | ->];
        [apply worker_step_nothing_to_create, Hle | reflexivity]. }
    rewrite Hstep. cbn [shared workers].
    assert (Hi : i < length (workers c)) by (eapply lookup_lt_Some; eauto).
    split; [reflexivity|].
    split; [apply Forall_insert; [assumption | right; reflexivity]|].
    split; [apply length_insert|]. split.
    + intros _. apply list_lookup_insert_eq. exact Hi.
    + intros j Hj. destruct (decide (i = j)) as [->|Hne].
      * apply list_lookup_insert_eq. exact Hi.
      * rewrite list_lookup_insert_ne by assumption. exact Hj.
  - split; [reflexivity|]. split; [assumption|]. split; [reflexivity|]. split.
    + intros Hi. apply lookup_ge_None in Hp. lia.
    + intros j Hj. exact Hj.
Qed.

Lemma run_idle (num_accounts : Z) (service : string) (sched : list nat) :
  (num_accounts <= 0)%Z ->
  forall c : Pool,
    Forall idle (workers c) ->
    shared (run num_accounts service sched c) = shared c
    /\ length (workers (run num_accounts service sched c)) = length (workers c)
    /\ (forall i, i < length (workers c) ->
          In i sched \/ workers c !! i = Some Returned ->
          workers (run num_accounts service sched c) !! i = Some Returned).
Proof.
  intros Hle. induction sched as [|i sched IH]; intros c Hidle.
  - simpl. repeat split. intros i Hi [[]|H]. exact H.
  - destruct (pool_step_idle num_accounts service i c Hle Hidle)
      as (Hsh & Hidle' & Hlen & Hi & Hkeep).
    destruct (IH (pool_step num_accounts service i c) Hidle')
      as (Hsh' & Hlen' & Hret).
    change (run num_accounts service (i :: sched) c)
      with (run num_accounts service sched (pool_step num_accounts service i c)).
    rewrite Hsh', Hlen', Hsh, Hlen. repeat split.
    intros j Hj [[<-|Hin]|Hdone]; apply Hret; rewrite ?Hlen; auto.
Qed.

(** With nothing to create, a run in which each worker gets to run ends with
    the empty array written. *)
Lemma create_accounts_idle_run
    (num_accounts : Z) (service output_file : string) (delay : Q) (threads : Z)
    (sched : list nat) (w : World) :
  (num_accounts <= 0)%Z ->
  (forall i, i < Z.to_nat threads -> In i sched) ->
  exists w' : World,
    create_accounts num_accounts service output_file delay threads sched w
    = Completed w'
    /\ w_fs w' = <[output_file := JsonFile (JArr []) 2]> (w_fs w)
    /\ records (w_fs w' !! output_file) = Some []
    /\ w_rpos w' = w_rpos w
    /\ w_cpos w' = w_cpos w.
Proof.
  intros Hle Hfair.
  destruct w as [rand rpos clock cpos out fs].
  set (w0 := print (opening_line num_accounts service threads)
                   (Build_World rand rpos clock cpos out fs)).
  assert (Hidle : Forall idle (workers (initial_pool delay threads w0))).
  { simpl. apply Forall_replicate. left. reflexivity. }
  destruct (run_idle num_accounts service sched Hle _ Hidle)
    as (Hsh & Hlen & Hret).
  assert (Hterm : forallb terminated
                    (workers (run num_accounts service sched
                                (initial_pool delay threads w0))) = true).
  { apply forallb_forall. intros p Hp.
    apply list_elem_of_In, list_elem_of_lookup_1 in Hp as [i Hi].
    assert (Hlt : i < length (workers (initial_pool delay threads w0))).
    { rewrite <- Hlen. eapply lookup_lt_Some; eauto. }
    rewrite Hret in Hi.
    - injection Hi as <-. reflexivity.
    - exact Hlt.
    - left. apply Hfair. simpl in Hlt. rewrite length_replicate in Hlt. exact Hlt. }
  eexists. split.
  - apply create_accounts_joined; [unfold MAX_ACCOUNTS; lia | exact Hterm].
  - fold w0. rewrite Hsh. simpl. rewrite lookup_insert_eq. repeat split.
Qed.

(** Every worker in turn, once, is such a run. *)
Lemma create_accounts_idle_round_robin
    (num_accounts : Z) (service output_file : string) (delay : Q) (threads : Z)
    (w : World) :
  (num_accounts <= 0)%Z ->
  exists w' : World,
    create_accounts num_accounts service output_file delay threads
                    (seq 0 (Z.to_nat threads)) w
    = Completed w'
    /\ records (w_fs w' !! output_file) = Some [].
Proof.
  intros Hle.
  destruct (create_accounts_idle_run num_accounts service output_file
              delay threads (seq 0 (Z.to_nat threads)) w Hle)
    as (w' & Hrun & _ & Hrec & _).
  { intros i Hi. apply in_seq. lia. }
  exists w'. auto.
Qed.

(** C9.  For a count of zero or less the call is not refused; a worker at its
    check returns at once, whatever [accounts] holds.  In every run in which
    each worker gets to run, the call returns having written the output file
    with an empty array and without having consulted the random generator
    or the clock. *)
Theorem create_accounts_nothing_to_create
    (num_accounts : Z) (service output_file : string) (delay : Q) (threads : Z)
    (sched : list nat) (w : World) :
  (num_accounts <= 0)%Z ->
  (forall i, i < Z.to_nat threads -> In i sched) ->
  (forall s : Shared,
     worker_step num_accounts service AtCheck s = (Returned, s))
  /\ exists w' : World,
       create_accounts num_accounts service output_file delay threads sched w
       = Completed w'
       /\ w_fs w' = <[output_file := JsonFile (JArr []) 2]> (w_fs w)
       /\ records (w_fs w' !! output_file) = Some []
       /\ w_rpos w' = w_rpos w
       /\ w_cpos w' = w_cpos w.
Proof.
  intros Hle Hfair. split.
  - intros s. apply worker_step_nothing_to_create, Hle.
  - apply create_accounts_idle_run; assumption.
Qed.

Lemma create_accounts_nothing_witness :
  ((0 <= 0)%Z /\ (forall i, i < Z.to_nat 3 -> In i [0; 1; 2]))
  /\ ((forall s : Shared, worker_step 0 "custom" AtCheck s = (Returned, s))
      /\ exists w' : World,
           create_accounts 0 "custom" "accounts.json" (1 # 2) 3 [0; 1; 2]
                           sample_world
           = Completed w'
           /\ w_fs w' = <["accounts.json" := JsonFile (JArr []) 2]>
                          (w_fs sample_world)
           /\ records (w_fs w' !! "accounts.json") = Some []
           /\ w_rpos w' = w_rpos sample_world
           /\ w_cpos w' = w_cpos sample_world).
Proof.
  assert (Hfair : forall i, i < Z.to_nat 3 -> In i [0; 1; 2]).
  { intros i Hi. simpl in *.
    destruct i as [|[|[|i]]]; [left|right; left|right; right; left|]; try reflexivity.
    exfalso. vm_compute in Hi. lia. }
  split; [split; [reflexivity | exact Hfair]|].
  apply (create_accounts_nothing_to_create
           0 "custom" "accounts.json" (1 # 2) 3 [0; 1; 2] sample_world).
  - reflexivity.
  - exact Hfair.
Defined.

(** Below the ceiling, the accounts the pool holds when every worker has
    terminated are the records of the output file. *)
Lemma create_accounts_written (num_accounts : Z) (service output_file : string)
    (delay : Q) (threads : Z) (sched : list nat) (w : World) :
  (num_accounts <= MAX_ACCOUNTS)%Z ->
  let c := run num_accounts service sched
             (initial_pool delay threads
                (print (opening_line num_accounts service threads) w)) in
  forallb terminated (workers c) = true ->
  exists w' : World,
    create_accounts num_accounts service output_file delay threads sched w
    = Completed w'
    /\ records (w_fs w' !! output_file)
       = Some (map json_of_account (sh_accounts (shared c))).
Proof.
  intros Hle c Hterm. eexists. split.
  - apply create_accounts_joined; assumption.
  - apply records_written.
Qed.

(** ** How many accounts a pool can make *)

Lemma len_app (accounts : list dict) (account : dict) :
  len (accounts ++ [account]) = (len accounts + 1)%Z.
Proof. unfold len. rewrite length_app. simpl. lia. Qed.

Lemma len_nonneg (accounts : list dict) : (0 <= len accounts)%Z.
Proof. unfold len. lia. Qed.

(** One step of a worker either keeps the sum of the records made and the
    record in the making, or is a check passed below the target, or is the
    death of the worker at [time.sleep]. *)
Lemma worker_step_flow (num_accounts : Z) (service : string) (p : pc) (s : Shared) :
  (len (sh_accounts (snd (worker_step num_accounts service p s)))
   + Z.b2z (in_flight (fst (worker_step num_accounts service p s)))
   = len (sh_accounts s) + Z.b2z (in_flight p))%Z
  \/ (p = AtCheck /\ worker_step num_accounts service p s = (AtCall, s)
      /\ (len (sh_accounts s) < num_accounts)%Z)
  \/ (p = AtCall /\ exists exn, worker_step num_accounts service p s = (Died exn, s)).
Proof.
  destruct p; cbn [worker_step].
  - destruct (len (sh_accounts s) >=? num_accounts)%Z eqn:E.
    + left. reflexivity.
    + right. left. rewrite Z.geb_leb in E. apply Z.leb_gt in E. auto.
  - destruct (sleep_returns (delay (sh_creator s))).
    + left. destruct (credentials None None None (sh_world s)) as [[[u pw] e] w1].
      reflexivity.
    + right. right. eauto.
  - left. destruct (identify (sh_creator s) service (sh_world s)) as [[[i d] a] w1].
    reflexivity.
  - left. reflexivity.
  - left.
    destruct (record service account_id username password email creation_date
                     user_agent (sh_world s)) as [a w1].
    reflexivity.
  - left. cbn [fst snd sh_accounts in_flight Z.b2z]. rewrite len_app. lia.
  - left. reflexivity.
  - left. reflexivity.
  - left. reflexivity.
Qed.

Lemma count_in_flight_cons (p : pc) (ps : list pc) :
  count_in_flight (p :: ps) = Nat.b2n (in_flight p) + count_in_flight ps.
Proof. unfold count_in_flight. simpl. destruct (in_flight p); reflexivity. Qed.

Lemma count_in_flight_insert (ps : list pc) (i : nat) (p p' : pc) :
  ps !! i = Some p ->
  count_in_flight (<[i := p']> ps) + Nat.b2n (in_flight p)
  = count_in_flight ps + Nat.b2n (in_flight p').
Proof.
  revert i. induction ps as [|q ps IH]; intros i Hi; [discriminate|].
  destruct i as [|i]; simpl in Hi.
  - injection Hi as ->. simpl. rewrite !count_in_flight_cons. lia.
  - simpl. rewrite !count_in_flight_cons. specialize (IH i Hi). lia.
Qed.

Lemma count_in_flight_le (ps : list pc) : count_in_flight ps <= length ps.
Proof.
  induction ps as [|q ps IH]; [reflexivity|].
  rewrite count_in_flight_cons. simpl. destruct (in_flight q); simpl; lia.
Qed.

Lemma count_in_flight_lt (ps : list pc) (i : nat) (p : pc) :
  ps !! i = Some p -> in_flight p = false -> count_in_flight ps < length ps.
Proof.
  revert i. induction ps as [|q ps IH]; intros i Hi Hp; [discriminate|].
  rewrite count_in_flight_cons. destruct i as [|i]; simpl in Hi.
  - injection Hi as ->. rewrite Hp. pose proof (count_in_flight_le ps). simpl. lia.
  - specialize (IH i Hi Hp). simpl. destruct (in_flight q); simpl; lia.
Qed.

Lemma count_in_flight_replicate (n : nat) :
  count_in_flight (replicate n AtCheck) = 0.
Proof. induction n as [|n IH]; [reflexivity|]. simpl. rewrite count_in_flight_cons, IH. reflexivity. Qed.

Lemma pool_step_bound (num_accounts : Z) (service : string) (i : nat) (c : Pool) :
  (len (sh_accounts (shared c)) + Z.of_nat (count_in_flight (workers c))
   <= most_accounts num_accounts (length (workers c)))%Z ->
  length (workers (pool_step num_accounts service i c)) = length (workers c)
  /\ (len (sh_accounts (shared (pool_step num_accounts service i c)))
      + Z.of_nat (count_in_flight (workers (pool_step num_accounts service i c)))
      <= most_accounts num_accounts (length (workers c)))%Z.
Proof.
  intros Hinv. unfold pool_step.
  destruct (workers c !! i) as [p|] eqn:Hp; [|auto].
  pose proof (worker_step_flow num_accounts service p (shared c)) as Hflow.
  destruct (worker_step num_accounts service p (shared c)) as [p' s'].
  cbn [shared workers fst snd] in *.
  pose proof (count_in_flight_insert (workers c) i p p' Hp) as Hcount.
  split; [apply length_insert|].
  destruct Hflow as [Hkeep | [(-> & Heq & Hlt) | (-> & exn & Heq)]].
  - destruct (in_flight p), (in_flight p'); simpl in *; lia.
  - injection Heq as -> ->.
    pose proof (count_in_flight_lt (workers c) i AtCheck Hp eq_refl) as Hroom.
    pose proof (len_nonneg (sh_accounts (shared c))) as Hlen.
    unfold most_accounts in *.
    destruct (num_accounts <=? 0)%Z eqn:E; [apply Z.leb_le in E|]; simpl in *; lia.
  - injection Heq as -> ->. simpl in *. lia.
Qed.

Lemma run_bound (num_accounts : Z) (service : string) (sched : list nat) :
  forall c : Pool,
    (len (sh_accounts (shared c)) + Z.of_nat (count_in_flight (workers c))
     <= most_accounts num_accounts (length (workers c)))%Z ->
    length (workers (run num_accounts service sched c)) = length (workers c)
    /\ (len (sh_accounts (shared (run num_accounts service sched c)))
        + Z.of_nat (count_in_flight (workers (run num_accounts service sched c)))
        <= most_accounts num_accounts (length (workers c)))%Z.
Proof.
  induction sched as [|i sched IH]; intros c Hinv; [auto|].
  destruct (pool_step_bound num_accounts service i c Hinv) as [Hlen Hstep].
  change (run num_accounts service (i :: sched) c)
    with (run num_accounts service sched (pool_step num_accounts service i c)).
  rewrite <- Hlen in Hstep. destruct (IH _ Hstep) as [Hlen' Hrun].
  rewrite Hlen' , Hlen in *. auto.
Qed.

(** A step never removes an account nor changes the delay; a worker returns
    only from a check that found the target met, and dies only at a
    [time.sleep] that refuses the delay. *)
Lemma worker_step_progress (num_accounts : Z) (service : string) (p : pc) (s : Shared) :
  (len (sh_accounts s)
   <= len (sh_accounts (snd (worker_step num_accounts service p s))))%Z
  /\ delay (sh_creator (snd (worker_step num_accounts service p s)))
     = delay (sh_creator s)
  /\ (fst (worker_step num_accounts service p s) = Returned ->
      p = Returned
      \/ (num_accounts
          <= len (sh_accounts (snd (worker_step num_accounts service p s))))%Z)
  /\ (sleep_returns (delay (sh_creator s)) = true ->
      forall exn, fst (worker_step num_accounts service p s) = Died exn ->
                  p = Died exn).
Proof.
  destruct p; cbn [worker_step].
  - destruct (len (sh_accounts s) >=? num_accounts)%Z eqn:E; cbn [fst snd].
    + rewrite Z.geb_leb in E. apply Z.leb_le in E.
      repeat split; try lia; try discriminate.
    + repeat split; try lia; discriminate.
  - destruct (sleep_returns (delay (sh_creator s))) eqn:E.
    + destruct (credentials None None None (sh_world s)) as [[[u pw] e] w1].
      cbn [fst snd with_world sh_accounts sh_creator].
      repeat split; try lia; discriminate.
    + cbn [fst snd]. repeat split; try lia; discriminate.
  - destruct (identify (sh_creator s) service (sh_world s)) as [[[i d] a] w1].
    cbn [fst snd with_world sh_accounts sh_creator].
    repeat split; try lia; discriminate.
  - cbn [fst snd sh_accounts sh_creator count_created delay].
    repeat split; try lia; discriminate.
  - destruct (record service account_id username password email creation_date
                     user_agent (sh_world s)) as [a w1].
    cbn [fst snd with_world sh_accounts sh_creator].
    repeat split; try lia; discriminate.
  - cbn [fst snd sh_accounts sh_creator]. rewrite len_app.
    repeat split; try lia; discriminate.
  - cbn [fst snd with_world sh_accounts sh_creator].
    repeat split; try lia; discriminate.
  - cbn [fst snd]. repeat split; try lia; auto.
  - cbn [fst snd]. repeat split; try lia; try discriminate.
    intros _ e He. exact He.
Qed.

Lemma pool_step_settled (num_accounts : Z) (service : string) (i : nat) (c : Pool) :
  settled num_accounts c -> settled num_accounts (pool_step num_accounts service i c).
Proof.
  intros [Hdelay Hall]. unfold pool_step.
  destruct (workers c !! i) as [p|] eqn:Hp; [|split; assumption].
  destruct (worker_step_progress num_accounts service p (shared c))
    as (Hgrow & Hsame & Hret & Hdie).
  destruct (worker_step num_accounts service p (shared c)) as [p' s'].
  cbn [fst snd] in *. unfold settled. cbn [shared workers].
  split; [congruence|].
  assert (Hp_ok : (p = Returned -> (num_accounts <= len (sh_accounts (shared c)))%Z)
                  /\ forall exn, p <> Died exn).
  { rewrite Forall_forall in Hall. apply Hall.
    eapply list_elem_of_lookup_2. exact Hp. }
  apply Forall_insert.
  - eapply Forall_impl; [exact Hall|].
    intros q [Hq Hq']. split; [|exact Hq'].
    intros ->. specialize (Hq eq_refl). lia.
  - split.
    + intros ->. destruct (Hret eq_refl) as [-> | Hge]; [|exact Hge].
      destruct Hp_ok as [Hp_ok _]. specialize (Hp_ok eq_refl). lia.
    + intros exn ->. specialize (Hdie Hdelay exn eq_refl).
      destruct Hp_ok as [_ Hp_ok]. exact (Hp_ok exn Hdie).
Qed.

Lemma run_settled (num_accounts : Z) (service : string) (sched : list nat) :
  forall c : Pool,
    settled num_accounts c -> settled num_accounts (run num_accounts service sched c).
Proof.
  induction sched as [|i sched IH]; intros c Hc; [exact Hc|].
  apply (IH (pool_step num_accounts service i c)).
  apply pool_step_settled, Hc.
Qed.

Lemma initial_pool_settled (num_accounts : Z) (delay : Q) (threads : Z) (w : World) :
  sleep_returns delay = true ->
  settled num_accounts (initial_pool delay threads w).
Proof.
  intros Hdelay. split; [exact Hdelay|].
  apply Forall_replicate. split; [discriminate|]. intros exn. discriminate.
Qed.

(** What does hold of the number of records: below the ceiling, with a
    delay [time.sleep] accepts and at least one worker, a call that returns
    has written at least [num_accounts] records and at most
    [most_accounts num_accounts threads]; that is [num_accounts] itself for
    a single worker and a count that is not negative. *)
Lemma create_accounts_count_bounds
    (num_accounts : Z) (service output_file : string) (delay : Q) (threads : Z)
    (sched : list nat) (w w' : World) :
  (num_accounts <= MAX_ACCOUNTS)%Z ->
  sleep_returns delay = true ->
  (1 <= threads)%Z ->
  create_accounts num_accounts service output_file delay threads sched w
  = Completed w' ->
  exists items : list json,
    records (w_fs w' !! output_file) = Some items
    /\ (num_accounts <= Z.of_nat (length items)
        <= most_accounts num_accounts (Z.to_nat threads))%Z.
Proof.
  intros Hmax Hdelay Hthreads Hrun.
  unfold create_accounts in Hrun.
  replace (num_accounts >? MAX_ACCOUNTS)%Z with false in Hrun by (symmetry; lia).
  set (w0 := print (opening_line num_accounts service threads) w) in *.
  set (c := run num_accounts service sched (initial_pool delay threads w0)) in *.
  destruct (forallb terminated (workers c)) eqn:Hterm; [|discriminate].
  injection Hrun as <-.
  exists (map json_of_account (sh_accounts (shared c))).
  split; [apply records_written|].
  rewrite length_map. fold (len (sh_accounts (shared c))).
  destruct (run_bound num_accounts service sched (initial_pool delay threads w0))
    as [Hsize Hmost].
  { cbn [initial_pool shared workers sh_accounts]. rewrite count_in_flight_replicate.
    unfold most_accounts, len.
    destruct (num_accounts <=? 0)%Z eqn:E; [|apply Z.leb_gt in E];
      rewrite ?length_replicate; simpl; lia. }
  fold c in Hsize, Hmost.
  cbn [initial_pool workers] in Hsize, Hmost. rewrite length_replicate in Hsize, Hmost.
  split; [|lia].
  destruct (run_settled num_accounts service sched
              (initial_pool delay threads w0)
              (initial_pool_settled num_accounts delay threads w0 Hdelay))
    as [_ Hall].
  fold c in Hall.
  destruct (workers c) as [|p ps] eqn:Hws; [simpl in Hsize; lia|].
  apply Forall_cons in Hall as [[Hret Hdied] _].
  simpl in Hterm. apply andb_true_iff in Hterm as [Hp _].
  destruct p; try discriminate Hp.
  - apply Hret. reflexivity.
  - exfalso. exact (Hdied exn eq_refl).
Qed.

Lemma create_accounts_single_worker
    (num_accounts : Z) (service output_file : string) (delay : Q)
    (sched : list nat) (w w' : World) :
  (0 <= num_accounts <= MAX_ACCOUNTS)%Z ->
  sleep_returns delay = true ->
  create_accounts num_accounts service output_file delay 1 sched w
  = Completed w' ->
  exists items : list json,
    records (w_fs w' !! output_file) = Some items
    /\ Z.of_nat (length items) = num_accounts.
Proof.
  intros [Hlo Hhi] Hdelay Hrun.
  destruct (create_accounts_count_bounds num_accounts service output_file delay 1
              sched w w' Hhi Hdelay ltac:(lia) Hrun) as (items & Hrec & Hle & Hge).
  exists items. split; [exact Hrec|].
  unfold most_accounts in Hge.
  destruct (num_accounts <=? 0)%Z eqn:E; [apply Z.leb_le in E|]; simpl in Hge; lia.
Qed.

(** *** A single worker *)

Lemma pool_step_single (num_accounts : Z) (service : string) (p : pc) (s : Shared) :
  pool_step num_accounts service 0 {| shared := s; workers := [p] |}
  = {| shared := snd (worker_step num_accounts service p s);
       workers := [fst (worker_step num_accounts service p s)] |}.
Proof.
  unfold pool_step. cbn [workers shared]. change ([p] !! 0) with (Some p).
  cbv beta iota.
  destruct (worker_step num_accounts service p s) as [p' s']. reflexivity.
Qed.

Lemma run_app (num_accounts : Z) (service : string) (s1 s2 : list nat) (c : Pool) :
  run num_accounts service (s1 ++ s2) c
  = run num_accounts service s2 (run num_accounts service s1 c).
Proof. unfold run. apply fold_left_app. Qed.

(** Below the target, seven steps take the only worker once round its loop
    and add one account. *)
Lemma single_worker_iteration (num_accounts : Z) (service : string) (s : Shared) :
  (len (sh_accounts s) < num_accounts)%Z ->
  sleep_returns (delay (sh_creator s)) = true ->
  exists s' : Shared,
    run num_accounts service (repeat 0 7) {| shared := s; workers := [AtCheck] |}
    = {| shared := s'; workers := [AtCheck] |}
    /\ len (sh_accounts s') = (len (sh_accounts s) + 1)%Z
    /\ delay (sh_creator s') = delay (sh_creator s).
Proof.
  intros Hlt Hsleep. unfold run. cbn [repeat fold_left].
  rewrite pool_step_single. cbn [worker_step].
  replace (len (sh_accounts s) >=? num_accounts)%Z with false
    by (symmetry; rewrite Z.geb_leb; apply Z.leb_gt; lia).
  cbn [fst snd].
  rewrite pool_step_single. cbn [worker_step]. rewrite Hsleep.
  destruct (credentials None None None (sh_world s)) as [[[u pw] e] w1].
  cbn [fst snd].
  rewrite pool_step_single. cbn [worker_step with_world sh_creator sh_world].
  destruct (identify (sh_creator s) service w1) as [[[i d] a] w2].
  cbn [fst snd].
  rewrite pool_step_single. cbn [worker_step with_world sh_creator sh_world fst snd].
  rewrite pool_step_single. cbn [worker_step with_world sh_creator sh_world].
  destruct (record service i u pw e d a w2) as [account w3].
  cbn [fst snd].
  rewrite pool_step_single. cbn [worker_step with_world sh_creator sh_world sh_accounts fst snd].
  rewrite pool_step_single. cbn [worker_step with_world sh_creator sh_world sh_accounts fst snd].
  eexists. split; [reflexivity|].
  cbn [with_world sh_accounts sh_creator count_created delay].
  rewrite len_app. split; reflexivity.
Qed.

Lemma single_worker_run (num_accounts : Z) (service : string) (k : nat) :
  forall s : Shared,
    (len (sh_accounts s) + Z.of_nat k = num_accounts)%Z ->
    sleep_returns (delay (sh_creator s)) = true ->
    exists s' : Shared,
      run num_accounts service (repeat 0 (7 * k + 1))
          {| shared := s; workers := [AtCheck] |}
      = {| shared := s'; workers := [Returned] |}.
Proof.
  induction k as [|k IH]; intros s Hlen Hsleep.
  - exists s. unfold run. cbn [Nat.mul Nat.add repeat fold_left].
    rewrite pool_step_single. cbn [worker_step].
    replace (len (sh_accounts s) >=? num_accounts)%Z with true
      by (symmetry; rewrite Z.geb_leb; apply Z.leb_le; lia).
    reflexivity.
  - replace (7 * S k + 1) with (7 + (7 * k + 1)) by lia.
    rewrite repeat_app, run_app.
    destruct (single_worker_iteration num_accounts service s ltac:(lia) Hsleep)
      as (s1 & -> & Hlen1 & Hdelay1).
    apply IH; [lia | congruence].
Qed.

(** The only worker left to run until it returns: the call returns with
    exactly [num_accounts] records written. *)
Lemma create_accounts_single_worker_returns
    (num_accounts : Z) (service output_file : string) (delay : Q) (w : World) :
  (0 <= num_accounts <= MAX_ACCOUNTS)%Z ->
  sleep_returns delay = true ->
  exists (w' : World) (items : list json),
    create_accounts num_accounts service output_file delay 1
                    (repeat 0 (7 * Z.to_nat num_accounts + 1)) w
    = Completed w'
    /\ records (w_fs w' !! output_file) = Some items
    /\ Z.of_nat (length items) = num_accounts.
Proof.
  intros Hrange Hdelay.
  set (w0 := print (opening_line num_accounts service 1) w).
  destruct (single_worker_run num_accounts service (Z.to_nat num_accounts)
              {| sh_world := w0; sh_creator := AccountCreator_init delay;
                 sh_accounts := [] |})
    as [s' Hs'].
  { unfold len. simpl. lia. }
  { exact Hdelay. }
  assert (Hrun : exists w', create_accounts num_accounts service output_file delay 1
                              (repeat 0 (7 * Z.to_nat num_accounts + 1)) w
                            = Completed w').
  { eexists. apply create_accounts_joined; [lia|].
    fold w0. change (initial_pool delay 1 w0)
      with {| shared := {| sh_world := w0; sh_creator := AccountCreator_init delay;
                           sh_accounts := [] |};
              workers := [AtCheck] |}.
    rewrite Hs'. reflexivity. }
  destruct Hrun as [w' Hrun]. exists w'.
  destruct (create_accounts_single_worker num_accounts service output_file delay
              _ w w' Hrange Hdelay Hrun) as (items & Hrec & Hlen).
  exists items. auto.
Qed.

(** C1, at one account and two workers.  The claim says the output never
    holds more than [count] records.  The worker checks the length of
    [accounts] in one critical section and appends in a later one, without
    looking at the length again: when both workers pass the check before
    either appends, the call asked for one account writes two. *)
Theorem create_accounts_overshoots (w : World) :
  exists (w' : World) (items : list json),
    create_accounts 1 "custom" "accounts.json" (1 # 2) 2 overshoot_schedule w
    = Completed w'
    /\ records (w_fs w' !! "accounts.json") = Some items
    /\ length items = 2.
Proof.
  destruct w as [rand rpos clock cpos out fs].
  destruct (create_accounts_written 1 "custom" "accounts.json" (1 # 2) 2
              overshoot_schedule (Build_World rand rpos clock cpos out fs))
    as (w' & Hrun & Hrec).
  - unfold MAX_ACCOUNTS. lia.
  - vm_compute. reflexivity.
  - eexists w', _. split; [exact Hrun|]. split; [exact Hrec|].
    rewrite length_map. vm_compute. reflexivity.
Qed.

(** C2, at two accounts and two workers.  The claim says no two records share
    an account id.  [create_account] formats the id from [self.created + 1]
    at line 98, before it takes the lock of line 102: when both workers read
    the counter before either increments it, the two records of the output
    carry the same id. *)
Theorem create_accounts_repeats_account_id (w : World) :
  exists (w' : World) (r1 r2 : json),
    create_accounts 2 "custom" "accounts.json" (1 # 2) 2 collision_schedule w
    = Completed w'
    /\ records (w_fs w' !! "accounts.json") = Some [r1; r2]
    /\ record_id r1 = Some "custom_acc_0000001"
    /\ record_id r2 = Some "custom_acc_0000001".
Proof.
  destruct w as [rand rpos clock cpos out fs].
  destruct (create_accounts_written 2 "custom" "accounts.json" (1 # 2) 2
              collision_schedule (Build_World rand rpos clock cpos out fs))
    as (w' & Hrun & Hrec).
  - unfold MAX_ACCOUNTS. lia.
  - vm_compute. reflexivity.
  - set (c := run 2 "custom" collision_schedule
                (initial_pool (1 # 2) 2
                   (print (opening_line 2 "custom" 2)
                          (Build_World rand rpos clock cpos out fs)))) in *.
    assert (Hids : map record_id (map json_of_account (sh_accounts (shared c)))
                   = [Some "custom_acc_0000001"; Some "custom_acc_0000001"]).
    { vm_compute. reflexivity. }
    destruct (map json_of_account (sh_accounts (shared c))) as [|r1 [|r2 [|r3 rest]]];
      try discriminate Hids.
    exists w', r1, r2. injection Hids as H1 H2. auto.
Qed.

(** * Further properties of the code *)

(** ** What a computation does to the world *)

Lemma advanced_refl (w : World) : advanced 0 0 w w.
Proof. unfold advanced. repeat split; lia. Qed.

Lemma advanced_trans (r1 c1 r2 c2 : nat) (w w1 w2 : World) :
  advanced r1 c1 w w1 -> advanced r2 c2 w1 w2 ->
  advanced (r1 + r2) (c1 + c2) w w2.
Proof.
  unfold advanced. intros (A1 & A2 & A3 & A4 & A5 & A6) (B1 & B2 & B3 & B4 & B5 & B6).
  repeat split; try congruence; lia.
Qed.

Lemma advanced_eq (r c r' c' : nat) (w w' : World) :
  advanced r c w w' -> r = r' -> c = c' -> advanced r' c' w w'.
Proof. intros H <- <-. exact H. Qed.

Lemma advanced_bind {A B} (m : Py A) (k : A -> Py B) (r1 c1 r2 c2 : nat) (w : World) :
  advanced r1 c1 w (world (m w)) ->
  (forall a w1, advanced r2 c2 w1 (world (k a w1))) ->
  advanced (r1 + r2) (c1 + c2) w (world ((m ≫= k) w)).
Proof.
  intros Hm Hk. rewrite bind_eq. eapply advanced_trans; [exact Hm | apply Hk].
Qed.

Lemma advanced_ret {A} (a : A) (w : World) : advanced 0 0 w (world ((mret a : Py A) w)).
Proof. rewrite ret_eq, world_pair. apply advanced_refl. Qed.

Lemma raw_advanced (w : World) : advanced 1 0 w (world (Random.raw w)).
Proof.
  destruct w as [rand rpos clock cpos out fs].
  unfold advanced. simpl. repeat split; lia.
Qed.

Lemma tick_advanced (w : World) : advanced 0 1 w (world (Time.tick w)).
Proof.
  destruct w as [rand rpos clock cpos out fs].
  unfold advanced. simpl. repeat split; lia.
Qed.

Lemma choice_advanced {A} (dflt : A) (seq : list A) (w : World) :
  advanced 1 0 w (world (Random.choice dflt seq w)).
Proof.
  unfold Random.choice, Random.randbelow.
  eapply advanced_eq.
  - apply advanced_bind; [|intros; apply advanced_ret].
    apply advanced_bind; [apply raw_advanced | intros; apply advanced_ret].
  - reflexivity.
  - reflexivity.
Qed.

Lemma random_advanced (w : World) : advanced 1 0 w (world (Random.random w)).
Proof.
  unfold Random.random.
  eapply advanced_eq;
    [apply advanced_bind; [apply raw_advanced | intros; apply advanced_ret] | |];
    reflexivity.
Qed.

Lemma int_time_advanced (w : World) : advanced 0 1 w (world (Time.int_time w)).
Proof.
  unfold Time.int_time.
  eapply advanced_eq;
    [apply advanced_bind; [apply tick_advanced | intros; apply advanced_ret] | |];
    reflexivity.
Qed.

Lemma now_strftime_advanced (w : World) :
  advanced 0 1 w (world (Time.now_strftime w)).
Proof.
  unfold Time.now_strftime.
  eapply advanced_eq;
    [apply advanced_bind; [apply tick_advanced | intros; apply advanced_ret] | |];
    reflexivity.
Qed.

Lemma choices_world_S (population : list ascii) (k : nat) (w : World) :
  world (Random.choices population (S k) w)
  = world (Random.choices population k
             (world (Random.choice "000"%char population w))).
Proof.
  rewrite choices_S. unfold world.
  destruct (Random.choice "000"%char population w) as [c w1]. cbn [snd].
  destruct (Random.choices population k w1) as [cs w2]. reflexivity.
Qed.

Lemma choices_advanced (population : list ascii) (k : nat) (w : World) :
  advanced k 0 w (world (Random.choices population k w)).
Proof.
  revert w. induction k as [|k IH]; intros w.
  - apply advanced_refl.
  - rewrite choices_world_S.
    eapply advanced_eq.
    + apply (advanced_trans 1 0 k 0 w _ _
               (choice_advanced "000"%char population w) (IH _)).
    + reflexivity.
    + reflexivity.
Qed.

Lemma _generate_uuid_advanced (w : World) :
  advanced 32 0 w (world (_generate_uuid w)).
Proof.
  unfold _generate_uuid.
  eapply advanced_eq.
  - repeat (apply advanced_bind; [apply choices_advanced | intros]).
    apply advanced_ret.
  - reflexivity.
  - reflexivity.
Qed.

Lemma _generate_jwt_advanced (w : World) :
  advanced 73 2 w (world (_generate_jwt w)).
Proof.
  unfold _generate_jwt.
  eapply advanced_eq.
  - apply advanced_bind; [apply choices_advanced | intros].
    apply advanced_bind; [apply int_time_advanced | intros].
    apply advanced_bind; [apply int_time_advanced | intros].
    apply advanced_bind; [apply choices_advanced | intros].
    apply advanced_ret.
  - reflexivity.
  - reflexivity.
Qed.

Lemma generate_jwt_eq (self : TokenGenerator) (w : World) :
  generate self "jwt" w
  = ((value (_generate_jwt w), {| generated := generated self + 1 |}),
     world (_generate_jwt w)).
Proof.
  unfold generate.
  replace (String.eqb "jwt" "hex") with false by reflexivity.
  replace (String.eqb "jwt" "numeric") with false by reflexivity.
  replace (String.eqb "jwt" "uuid") with false by reflexivity.
  rewrite String.eqb_refl. step_py. cbn [fst snd value world]. reflexivity.
Qed.

Lemma generate_advanced (self : TokenGenerator) (token_type : string) (w : World) :
  advanced (fst (consumption token_type)) (snd (consumption token_type))
           w (world (generate self token_type w)).
Proof.
  unfold consumption.
  destruct (String.eqb token_type "hex") eqn:Ehex.
  { apply String.eqb_eq in Ehex. subst. rewrite generate_hex_eq, world_pair.
    apply (choices_advanced _ 64). }
  destruct (String.eqb token_type "numeric") eqn:Enum.
  { apply String.eqb_eq in Enum. subst. rewrite generate_numeric_eq, world_pair.
    apply (choices_advanced _ 64). }
  destruct (String.eqb token_type "uuid") eqn:Euuid.
  { apply String.eqb_eq in Euuid. subst. rewrite generate_uuid_eq, world_pair.
    apply _generate_uuid_advanced. }
  destruct (String.eqb token_type "jwt") eqn:Ejwt.
  { apply String.eqb_eq in Ejwt. subst. rewrite generate_jwt_eq, world_pair.
    apply _generate_jwt_advanced. }
  apply String.eqb_neq in Ehex, Enum, Euuid, Ejwt.
  rewrite (generate_else_eq self token_type w Ehex Enum Euuid Ejwt), world_pair.
  apply (choices_advanced _ 64).
Qed.

(** X1.  [generate] asks the random generator 64 times for a hex, numeric or
    alphanumeric token (any unknown kind included), 32 times for a uuid and
    73 times for a jwt, reads the clock twice for a jwt and never otherwise,
    and does nothing else to the world: it prints nothing and touches no
    file. *)
Theorem generate_consumes (self : TokenGenerator) (token_type : string) (w : World) :
  advanced (fst (consumption token_type)) (snd (consumption token_type))
           w (world (generate self token_type w)).
Proof. apply generate_advanced. Qed.

(** ** generate_tokens *)

Lemma stdout_write_effect (text : string) (w : World) :
  w_rand (stdout_write text w) = w_rand w
  /\ w_rpos (stdout_write text w) = w_rpos w
  /\ w_clock (stdout_write text w) = w_clock w
  /\ w_cpos (stdout_write text w) = w_cpos w
  /\ w_stdout (stdout_write text w) = (w_stdout w ++ [text])%list
  /\ w_fs (stdout_write text w) = w_fs w.
Proof. destruct w. repeat split. Qed.

Lemma write_file_effect (path : string) (content : file) (w : World) :
  w_rand (write_file path content w) = w_rand w
  /\ w_rpos (write_file path content w) = w_rpos w
  /\ w_clock (write_file path content w) = w_clock w
  /\ w_cpos (write_file path content w) = w_cpos w
  /\ w_stdout (write_file path content w) = w_stdout w
  /\ w_fs (write_file path content w) = <[path := content]> (w_fs w).
Proof. destruct w. repeat split. Qed.

Lemma token_loop_S (num_tokens : Z) (token_type : string) (todo : nat) (i : Z)
    (generator : TokenGenerator) (tokens : list string) (w : World) :
  token_loop num_tokens token_type (S todo) i generator tokens w
  = token_loop num_tokens token_type todo (i + 1)
      (snd (value (generate generator token_type w)))
      (tokens ++ [fst (value (generate generator token_type w))])
      (stdout_write (progress_line (i + 1) num_tokens)
                    (world (generate generator token_type w))).
Proof.
  cbn [token_loop]. unfold value, world.
  destruct (generate generator token_type w) as [[token g] w1]. reflexivity.
Qed.

(** The loop, for a property [Q] every generated token has: [todo] tokens
    with [Q] are appended, the progress reports follow one another, the
    random generator and the clock are asked [todo] times what one token
    takes, and no file is touched. *)
Lemma token_loop_spec (Q : string -> Prop) (num_tokens : Z) (token_type : string) :
  (forall g w, Q (fst (value (generate g token_type w)))) ->
  forall (todo : nat) (i : Z) (generator : TokenGenerator)
         (tokens : list string) (w : World),
    exists drawn : list string,
      snd (fst (token_loop num_tokens token_type todo i generator tokens w))
      = (tokens ++ drawn)%list
      /\ length drawn = todo
      /\ Forall Q drawn
      /\ generated
           (fst (fst (token_loop num_tokens token_type todo i generator tokens w)))
         = (generated generator + Z.of_nat todo)%Z
      /\ w_fs (snd (token_loop num_tokens token_type todo i generator tokens w))
         = w_fs w
      /\ w_rpos (snd (token_loop num_tokens token_type todo i generator tokens w))
         = w_rpos w + todo * fst (consumption token_type)
      /\ w_cpos (snd (token_loop num_tokens token_type todo i generator tokens w))
         = w_cpos w + todo * snd (consumption token_type)
      /\ w_stdout (snd (token_loop num_tokens token_type todo i generator tokens w))
         = (w_stdout w
            ++ map (fun k => progress_line (i + Z.of_nat k) num_tokens)
                   (seq 1 todo))%list.
Proof.
  intros HQ. induction todo as [|todo IH]; intros i generator tokens w.
  - exists []. cbn [token_loop fst snd seq map].
    rewrite !app_nil_r. repeat split; try lia. constructor.
  - rewrite token_loop_S.
    destruct (generate_eq generator token_type w) as [body Hbody].
    pose proof (generate_advanced generator token_type w)
      as (A1 & A2 & A3 & A4 & A5 & A6).
    pose proof (HQ generator w) as Htoken.
    set (token := fst (value (generate generator token_type w))) in *.
    set (w1 := world (generate generator token_type w)) in *.
    assert (Hg : generated (snd (value (generate generator token_type w)))
                 = (generated generator + 1)%Z)
      by (rewrite Hbody; reflexivity).
    destruct (stdout_write_effect (progress_line (i + 1) num_tokens) w1)
      as (B1 & B2 & B3 & B4 & B5 & B6).
    destruct (IH (i + 1)%Z (snd (value (generate generator token_type w)))
                 (tokens ++ [token])%list
                 (stdout_write (progress_line (i + 1) num_tokens) w1))
      as (drawn & Htoks & Hlen & Hall & Hgen & Hfs & Hrpos & Hcpos & Hout).
    exists (token :: drawn).
    rewrite Htoks, Hgen, Hfs, Hrpos, Hcpos, Hout, Hg, B2, B4, B5, B6, A2, A4, A5, A6.
    split; [rewrite <- app_assoc; reflexivity|].
    split; [simpl; lia|].
    split; [constructor; assumption|].
    split; [lia|].
    split; [reflexivity|].
    split; [cbn [Nat.mul]; lia|].
    split; [cbn [Nat.mul]; lia|].
    assert (Hseq : map (fun k => progress_line (i + Z.of_nat k) num_tokens)
                       (seq 1 (S todo))
                   = progress_line (i + 1) num_tokens
                     :: map (fun k => progress_line (i + 1 + Z.of_nat k) num_tokens)
                            (seq 1 todo)).
    { change (seq 1 (S todo)) with (1 :: seq 2 todo).
      rewrite <- (seq_shift todo 1), map_cons, map_map.
      f_equal. apply map_ext. intros k. f_equal. lia. }
    rewrite Hseq, <- app_assoc. reflexivity.
Qed.

Lemma generate_tokens_eq (num_tokens : Z) (token_type output_file : string)
    (w : World) :
  generate_tokens num_tokens token_type output_file w
  = print (Fore.GREEN +:+ PyStr.nl +:+ PyStr.nl +:+ "[+] Saved "
           +:+ PyStr.str_of_Z
                 (Z.of_nat
                    (length
                       (snd (fst (token_loop num_tokens token_type
                                    (Z.to_nat num_tokens) 0 TokenGenerator_init []
                                    (print (Fore.CYAN +:+ PyStr.nl
                                            +:+ "[+] Generating "
                                            +:+ PyStr.str_of_Z num_tokens +:+ " "
                                            +:+ token_type +:+ " tokens...") w))))))
           +:+ " tokens to " +:+ output_file)
      (write_file output_file
         (TextFile
            (file_lines
               (snd (fst (token_loop num_tokens token_type
                            (Z.to_nat num_tokens) 0 TokenGenerator_init []
                            (print (Fore.CYAN +:+ PyStr.nl
                                    +:+ "[+] Generating "
                                    +:+ PyStr.str_of_Z num_tokens +:+ " "
                                    +:+ token_type +:+ " tokens...") w))))))
         (snd (token_loop num_tokens token_type
                 (Z.to_nat num_tokens) 0 TokenGenerator_init []
                 (print (Fore.CYAN +:+ PyStr.nl
                         +:+ "[+] Generating "
                         +:+ PyStr.str_of_Z num_tokens +:+ " "
                         +:+ token_type +:+ " tokens...") w)))).
Proof.
  unfold generate_tokens.
  destruct (token_loop num_tokens token_type (Z.to_nat num_tokens) 0
              TokenGenerator_init [] _) as [[g tokens] w1].
  reflexivity.
Qed.

Lemma print_effect (text : string) (w : World) :
  w_rand (print text w) = w_rand w
  /\ w_rpos (print text w) = w_rpos w
  /\ w_clock (print text w) = w_clock w
  /\ w_cpos (print text w) = w_cpos w
  /\ w_stdout (print text w) = (w_stdout w ++ [text +:+ PyStr.nl])%list
  /\ w_fs (print text w) = w_fs w.
Proof. apply stdout_write_effect. Qed.

(** What [generate_tokens] leaves, for a property [Q] of every token of the
    kind. *)
Lemma generate_tokens_spec (Q : string -> Prop) (num_tokens : Z)
    (token_type output_file : string) (w : World) :
  (forall g w, Q (fst (value (generate g token_type w)))) ->
  exists tokens : list string,
    length tokens = Z.to_nat num_tokens
    /\ Forall Q tokens
    /\ w_fs (generate_tokens num_tokens token_type output_file w)
       = <[output_file := TextFile (file_lines tokens)]> (w_fs w)
    /\ w_rpos (generate_tokens num_tokens token_type output_file w)
       = w_rpos w + Z.to_nat num_tokens * fst (consumption token_type)
    /\ w_cpos (generate_tokens num_tokens token_type output_file w)
       = w_cpos w + Z.to_nat num_tokens * snd (consumption token_type)
    /\ w_stdout (generate_tokens num_tokens token_type output_file w)
       = (w_stdout w
          ++ [(Fore.CYAN +:+ PyStr.nl +:+ "[+] Generating "
               +:+ PyStr.str_of_Z num_tokens +:+ " " +:+ token_type
               +:+ " tokens...") +:+ PyStr.nl]
          ++ map (fun k => progress_line (Z.of_nat k) num_tokens)
                 (seq 1 (Z.to_nat num_tokens))
          ++ [(Fore.GREEN +:+ PyStr.nl +:+ PyStr.nl +:+ "[+] Saved "
               +:+ PyStr.str_of_Z (Z.of_nat (length tokens))
               +:+ " tokens to " +:+ output_file) +:+ PyStr.nl])%list.
Proof.
  intros HQ. rewrite generate_tokens_eq.
  set (w0 := print (Fore.CYAN +:+ PyStr.nl +:+ "[+] Generating "
                    +:+ PyStr.str_of_Z num_tokens +:+ " " +:+ token_type
                    +:+ " tokens...") w).
  destruct (token_loop_spec Q num_tokens token_type HQ (Z.to_nat num_tokens) 0
              TokenGenerator_init [] w0)
    as (tokens & Htoks & Hlen & Hall & _ & Hfs & Hrpos & Hcpos & Hout).
  rewrite Htoks. rewrite app_nil_l.
  set (w1 := snd (token_loop num_tokens token_type (Z.to_nat num_tokens) 0
                    TokenGenerator_init [] w0)) in *.
  destruct (print_effect (Fore.CYAN +:+ PyStr.nl +:+ "[+] Generating "
                          +:+ PyStr.str_of_Z num_tokens +:+ " " +:+ token_type
                          +:+ " tokens...") w)
    as (_ & P2 & _ & P4 & P5 & P6).
  fold w0 in P2, P4, P5, P6.
  exists tokens. split; [exact Hlen|]. split; [exact Hall|].
  match goal with |- context [print ?t (write_file ?p ?c w1)] =>
    destruct (print_effect t (write_file p c w1)) as (_ & Q2 & _ & Q4 & Q5 & Q6);
    destruct (write_file_effect p c w1) as (_ & R2 & _ & R4 & R5 & R6)
  end.
  rewrite Q2, Q4, Q5, Q6, R2, R4, R5, R6, Hfs, Hrpos, Hcpos, Hout, P2, P4, P5, P6.
  split; [reflexivity|]. split; [reflexivity|]. split; [reflexivity|].
  rewrite <- !app_assoc.
  rewrite (map_ext (fun k => progress_line (0 + Z.of_nat k) num_tokens)
                   (fun k => progress_line (Z.of_nat k) num_tokens))
    by reflexivity.
  reflexivity.
Qed.

Lemma generate_plain_token (self : TokenGenerator) (token_type : string) (w : World) :
  token_type <> "uuid" -> token_type <> "jwt" ->
  String.length (fst (value (generate self token_type w))) = 64
  /\ PyStr.forallb_chars (plain_charset token_type)
       (fst (value (generate self token_type w))) = true.
Proof.
  intros Huuid Hjwt. unfold plain_charset.
  destruct (String.eqb token_type "hex") eqn:Ehex.
  { apply String.eqb_eq in Ehex. subst.
    rewrite generate_hex_eq. cbn [fst snd value world].
    rewrite length_join_chars, forallb_join_chars, choices_length.
    split; [reflexivity|]. apply choices_forallb; [discriminate | reflexivity]. }
  destruct (String.eqb token_type "numeric") eqn:Enum.
  { apply String.eqb_eq in Enum. subst.
    rewrite generate_numeric_eq. cbn [fst snd value world].
    rewrite length_join_chars, forallb_join_chars, choices_length.
    split; [reflexivity|]. apply choices_forallb; [discriminate | reflexivity]. }
  apply String.eqb_neq in Ehex, Enum.
  rewrite (generate_else_eq self token_type w Ehex Enum Huuid Hjwt).
  cbn [fst snd value world].
  rewrite length_join_chars, forallb_join_chars, choices_length.
  split; [reflexivity|]. apply choices_forallb; [discriminate | reflexivity].
Qed.

Lemma plain_charset_no_newline (token_type : string) :
  plain_charset token_type "010"%char = false.
Proof.
  unfold plain_charset.
  destruct (String.eqb token_type "hex"); [reflexivity|].
  destruct (String.eqb token_type "numeric"); reflexivity.
Qed.

(** Splitting the text of the file at its line feeds gives the tokens back,
    and the empty piece after the last line feed. *)
Lemma split_file_lines (p : ascii -> bool) (tokens : list string) :
  p "010"%char = false ->
  Forall (fun token => PyStr.forallb_chars p token = true) tokens ->
  PyStr.split "010"%char (file_lines tokens) = (tokens ++ [""])%list.
Proof.
  intros Hsep. induction 1 as [|token rest Htoken Hrest IH]; [reflexivity|].
  cbn [file_lines].
  change PyStr.nl with (String "010"%char "").
  rewrite (split_piece p "010"%char token _ Hsep Htoken), IH. reflexivity.
Qed.

(** X2.  For a kind other than uuid and jwt, [generate_tokens] leaves in the
    output file, replacing what the path held, one line per token: split at
    its line feeds the text gives [num_tokens] tokens (none for a count of
    zero or less) of 64 characters of the kind's character set, then the
    empty piece after the last line feed.  No other file changes and the
    random generator has been asked 64 times per token. *)
Theorem generate_tokens_writes_lines
    (num_tokens : Z) (token_type output_file : string) (w : World) :
  token_type <> "uuid" -> token_type <> "jwt" ->
  exists tokens : list string,
    w_fs (generate_tokens num_tokens token_type output_file w)
    = <[output_file := TextFile (file_lines tokens)]> (w_fs w)
    /\ length tokens = Z.to_nat num_tokens
    /\ PyStr.split "010"%char (file_lines tokens) = (tokens ++ [""])%list
    /\ Forall (fun token =>
                 String.length token = 64
                 /\ PyStr.forallb_chars (plain_charset token_type) token = true)
              tokens
    /\ w_rpos (generate_tokens num_tokens token_type output_file w)
       = w_rpos w + 64 * Z.to_nat num_tokens.
Proof.
  intros Huuid Hjwt.
  destruct (generate_tokens_spec
              (fun token =>
                 String.length token = 64
                 /\ PyStr.forallb_chars (plain_charset token_type) token = true)
              num_tokens token_type output_file w)
    as (tokens & Hlen & Hall & Hfs & Hrpos & _).
  { intros g w0. apply generate_plain_token; assumption. }
  exists tokens. split; [exact Hfs|]. split; [exact Hlen|].
  split; [|split; [exact Hall|]].
  - apply (split_file_lines (plain_charset token_type)).
    + apply plain_charset_no_newline.
    + eapply Forall_impl; [exact Hall|]. intros token [_ H]. exact H.
  - rewrite Hrpos.
    assert (Hdraws : fst (consumption token_type) = 64).
    { unfold consumption. apply String.eqb_neq in Huuid, Hjwt.
      rewrite Huuid, Hjwt.
      destruct (String.eqb token_type "hex"); [reflexivity|].
      destruct (String.eqb token_type "numeric"); reflexivity. }
    rewrite Hdraws. lia.
Qed.

Lemma generate_tokens_writes_lines_witness :
  ("numeric" <> "uuid" /\ "numeric" <> "jwt")
  /\ exists tokens : list string,
       w_fs (generate_tokens 3 "numeric" "t.txt" sample_world)
       = <["t.txt" := TextFile (file_lines tokens)]> (w_fs sample_world)
       /\ length tokens = Z.to_nat 3
       /\ PyStr.split "010"%char (file_lines tokens) = (tokens ++ [""])%list
       /\ Forall (fun token =>
                    String.length token = 64
                    /\ PyStr.forallb_chars (plain_charset "numeric") token = true)
                 tokens
       /\ w_rpos (generate_tokens 3 "numeric" "t.txt" sample_world)
          = w_rpos sample_world + 64 * Z.to_nat 3.
Proof.
  split; [split; discriminate|].
  apply (generate_tokens_writes_lines 3 "numeric" "t.txt" sample_world);
    discriminate.
Defined.

(** X3.  For a count of zero or less [generate_tokens] still opens the output
    file for writing: the path ends up holding the empty text, whatever it
    held before; the random generator and the clock are not consulted, and
    the two lines printed are the announcement and the report of 0 tokens
    saved. *)
Theorem generate_tokens_nothing
    (num_tokens : Z) (token_type output_file : string) (w : World) :
  (num_tokens <= 0)%Z ->
  w_fs (generate_tokens num_tokens token_type output_file w)
  = <[output_file := TextFile ""]> (w_fs w)
  /\ w_rpos (generate_tokens num_tokens token_type output_file w) = w_rpos w
  /\ w_cpos (generate_tokens num_tokens token_type output_file w) = w_cpos w
  /\ w_stdout (generate_tokens num_tokens token_type output_file w)
     = (w_stdout w
        ++ [(Fore.CYAN +:+ PyStr.nl +:+ "[+] Generating "
             +:+ PyStr.str_of_Z num_tokens +:+ " " +:+ token_type
             +:+ " tokens...") +:+ PyStr.nl;
            (Fore.GREEN +:+ PyStr.nl +:+ PyStr.nl +:+ "[+] Saved "
             +:+ "0" +:+ " tokens to " +:+ output_file) +:+ PyStr.nl])%list.
Proof.
  intros Hle.
  destruct (generate_tokens_spec (fun _ => True) num_tokens token_type
              output_file w)
    as (tokens & Hlen & _ & Hfs & Hrpos & Hcpos & Hout); [auto|].
  replace (Z.to_nat num_tokens) with 0 in * by lia.
  destruct tokens; [|discriminate Hlen].
  rewrite Hfs, Hrpos, Hcpos, Hout. cbn [file_lines seq map app length Nat.mul].
  repeat split; lia.
Qed.

Lemma generate_tokens_nothing_witness :
  (0 <= 0)%Z
  /\ w_fs (generate_tokens 0 "hex" "t.txt" sample_world)
     = <["t.txt" := TextFile ""]> (w_fs sample_world)
  /\ w_rpos (generate_tokens 0 "hex" "t.txt" sample_world) = w_rpos sample_world
  /\ w_cpos (generate_tokens 0 "hex" "t.txt" sample_world) = w_cpos sample_world
  /\ w_stdout (generate_tokens 0 "hex" "t.txt" sample_world)
     = (w_stdout sample_world
        ++ [(Fore.CYAN +:+ PyStr.nl +:+ "[+] Generating "
             +:+ PyStr.str_of_Z 0 +:+ " " +:+ "hex"
             +:+ " tokens...") +:+ PyStr.nl;
            (Fore.GREEN +:+ PyStr.nl +:+ PyStr.nl +:+ "[+] Saved "
             +:+ "0" +:+ " tokens to " +:+ "t.txt") +:+ PyStr.nl])%list.
Proof.
  split; [reflexivity|].
  apply (generate_tokens_nothing 0 "hex" "t.txt" sample_world). reflexivity.
Defined.

(** X4.  [generate_tokens] has no ceiling and treats every kind alike: for
    any count it writes that many tokens (none below one), reports progress
    once per token, 1 of [num_tokens] up to [num_tokens] of [num_tokens] in
    this order, between the announcement and the closing line that gives the
    number of tokens saved, and asks the random generator and the clock what
    one token of the kind takes, times the number of tokens. *)
Theorem generate_tokens_reports
    (num_tokens : Z) (token_type output_file : string) (w : World) :
  exists tokens : list string,
    length tokens = Z.to_nat num_tokens
    /\ w_fs (generate_tokens num_tokens token_type output_file w)
       = <[output_file := TextFile (file_lines tokens)]> (w_fs w)
    /\ w_rpos (generate_tokens num_tokens token_type output_file w)
       = w_rpos w + Z.to_nat num_tokens * fst (consumption token_type)
    /\ w_cpos (generate_tokens num_tokens token_type output_file w)
       = w_cpos w + Z.to_nat num_tokens * snd (consumption token_type)
    /\ w_stdout (generate_tokens num_tokens token_type output_file w)
       = (w_stdout w
          ++ [(Fore.CYAN +:+ PyStr.nl +:+ "[+] Generating "
               +:+ PyStr.str_of_Z num_tokens +:+ " " +:+ token_type
               +:+ " tokens...") +:+ PyStr.nl]
          ++ map (fun k => progress_line (Z.of_nat k) num_tokens)
                 (seq 1 (Z.to_nat num_tokens))
          ++ [(Fore.GREEN +:+ PyStr.nl +:+ PyStr.nl +:+ "[+] Saved "
               +:+ PyStr.str_of_Z (Z.of_nat (Z.to_nat num_tokens))
               +:+ " tokens to " +:+ output_file) +:+ PyStr.nl])%list.
Proof.
  destruct (generate_tokens_spec (fun _ => True) num_tokens token_type
              output_file w)
    as (tokens & Hlen & _ & Hfs & Hrpos & Hcpos & Hout); [auto|].
  exists tokens. rewrite Hfs, Hrpos, Hcpos, Hout, Hlen. repeat split.
Qed.

(** ** The jwt look-alike *)

Lemma forallb_chars_impl (p q : ascii -> bool) (s : string) :
  (forall c, p c = true -> q c = true) ->
  PyStr.forallb_chars p s = true -> PyStr.forallb_chars q s = true.
Proof.
  intros Hpq. induction s as [|c s IH]; [reflexivity|].
  simpl. intros H. apply andb_true_iff in H as [Hc Hs].
  rewrite (Hpq c Hc), (IH Hs). reflexivity.
Qed.

Lemma string_of_uint_digits (d : Decimal.uint) :
  PyStr.forallb_chars PyStr.is_digit (NilEmpty.string_of_uint d) = true.
Proof. induction d; simpl; try rewrite IHd; reflexivity. Qed.

(** [str(z)] is made of decimal digits, after a minus sign for a negative
    number. *)
Lemma str_of_Z_chars (z : Z) :
  PyStr.forallb_chars (fun c => PyStr.is_digit c || Ascii.eqb c "-")
                      (PyStr.str_of_Z z) = true.
Proof.
  assert (Hu : forall d,
             PyStr.forallb_chars (fun c => PyStr.is_digit c || Ascii.eqb c "-")
                                 (NilZero.string_of_uint d) = true).
  { intros d.
    apply (forallb_chars_impl PyStr.is_digit);
      [intros c ->; reflexivity|].
    destruct d; try apply string_of_uint_digits. reflexivity. }
  unfold PyStr.str_of_Z, NilZero.string_of_int.
  destruct (Z.to_int z) as [d|d]; [apply Hu|].
  simpl. apply Hu.
Qed.

Lemma int_time_value (w : World) :
  value (Time.int_time w) = epoch (w_clock w (w_cpos w)).
Proof. destruct w. reflexivity. Qed.

Lemma jwt_payload_no_dot (sub : string) (iat exp : Z) :
  PyStr.forallb_chars PyStr.is_alnum sub = true ->
  PyStr.forallb_chars (fun c => negb (Ascii.eqb c "."))
                      (jwt_payload ("user_" +:+ sub) iat exp) = true.
Proof.
  intros Hsub. unfold jwt_payload.
  assert (Hz : forall z, PyStr.forallb_chars (fun c => negb (Ascii.eqb c "."))
                           (PyStr.str_of_Z z) = true).
  { intros z. eapply forallb_chars_impl; [|apply str_of_Z_chars].
    intros c Hc. apply orb_true_iff in Hc as [Hd | Hm].
    - destruct (Ascii.eqb c ".") eqn:E; [|reflexivity].
      apply Ascii.eqb_eq in E. subst. discriminate Hd.
    - apply Ascii.eqb_eq in Hm. subst. reflexivity. }
  assert (Hs : PyStr.forallb_chars (fun c => negb (Ascii.eqb c ".")) sub = true).
  { eapply forallb_chars_impl; [|exact Hsub].
    intros c Hc. destruct (Ascii.eqb c ".") eqn:E; [|reflexivity].
    apply Ascii.eqb_eq in E. subst. discriminate Hc. }
  rewrite !forallb_chars_app, !Hz, Hs. reflexivity.
Qed.

Lemma digits_are_alnum_population :
  PyStr.chars PyStr.digits <> []
  /\ forallb PyStr.is_digit (PyStr.chars PyStr.digits) = true
  /\ PyStr.chars PyStr.hexdigits <> []
  /\ forallb is_hexdigit (PyStr.chars PyStr.hexdigits) = true.
Proof. repeat split; discriminate. Qed.

(** The token [_generate_jwt] returns. *)
Lemma _generate_jwt_parts (w : World) :
  exists ds sig : string,
    value (_generate_jwt w)
    = jwt_header +:+ "."
      +:+ jwt_payload ("user_" +:+ ds)
                      (epoch (w_clock w (w_cpos w)))
                      (epoch (w_clock w (S (w_cpos w))) + 3600)
      +:+ "." +:+ sig
    /\ String.length ds = 9
    /\ PyStr.forallb_chars PyStr.is_digit ds = true
    /\ String.length sig = 64
    /\ PyStr.forallb_chars is_hexdigit sig = true.
Proof.
  destruct digits_are_alnum_population as (Hd1 & Hd2 & Hh1 & Hh2).
  unfold _generate_jwt. step_py.
  rewrite !int_time_value.
  pose proof (choices_advanced (PyStr.chars PyStr.digits) 9 w)
    as (_ & _ & C3 & C4 & _).
  set (w1 := world (Random.choices (PyStr.chars PyStr.digits) 9 w)) in *.
  pose proof (int_time_advanced w1) as (_ & _ & T3 & T4 & _).
  set (w2 := world (Time.int_time w1)) in *.
  rewrite T3, T4, C3, C4, !Nat.add_0_r, Nat.add_1_r.
  eexists _, _. split; [reflexivity|].
  rewrite !length_join_chars, !forallb_join_chars, !choices_length.
  repeat split; apply choices_forallb; assumption.
Qed.

(** X5.  A token of kind jwt is three texts joined by two dots and splits at
    its dots into exactly these three: the fixed header, the payload with a
    subject "user_" followed by 9 decimal digits, and 64 characters of
    [string.hexdigits], upper and lower case mixed.  The two times of the
    payload come from two readings of the clock: "iat" is the first one and
    "exp" is the second one plus 3600. *)
Theorem generate_jwt_shape (self : TokenGenerator) (w : World) :
  exists ds sig : string,
    fst (value (generate self "jwt" w))
    = jwt_header +:+ "."
      +:+ jwt_payload ("user_" +:+ ds)
                      (epoch (w_clock w (w_cpos w)))
                      (epoch (w_clock w (S (w_cpos w))) + 3600)
      +:+ "." +:+ sig
    /\ PyStr.split "." (fst (value (generate self "jwt" w)))
       = [jwt_header;
          jwt_payload ("user_" +:+ ds)
                      (epoch (w_clock w (w_cpos w)))
                      (epoch (w_clock w (S (w_cpos w))) + 3600);
          sig]
    /\ String.length ds = 9
    /\ PyStr.forallb_chars PyStr.is_digit ds = true
    /\ String.length sig = 64
    /\ PyStr.forallb_chars is_hexdigit sig = true.
Proof.
  destruct (_generate_jwt_parts w) as (ds & sig & Heq & Hds & Hdig & Hsig & Hhex).
  exists ds, sig. rewrite generate_jwt_eq. cbn [fst snd value world].
  fold (value (_generate_jwt w)). rewrite Heq.
  split; [reflexivity|]. split; [|auto].
  set (p := fun c => negb (Ascii.eqb c ".")).
  assert (Hsep : p "."%char = false) by reflexivity.
  assert (Hheader : PyStr.forallb_chars p jwt_header = true) by reflexivity.
  assert (Hpayload :
            PyStr.forallb_chars p
              (jwt_payload ("user_" +:+ ds) (epoch (w_clock w (w_cpos w)))
                           (epoch (w_clock w (S (w_cpos w))) + 3600)) = true).
  { apply jwt_payload_no_dot.
    eapply forallb_chars_impl; [|exact Hdig]. intros c Hc.
    unfold PyStr.is_alnum. rewrite Hc. reflexivity. }
  assert (Hs : PyStr.forallb_chars p sig = true).
  { eapply forallb_chars_impl; [|exact Hhex]. intros c Hc. unfold p.
    destruct (Ascii.eqb c ".") eqn:E; [|reflexivity].
    apply Ascii.eqb_eq in E. subst. discriminate Hc. }
  rewrite (split_piece p "."%char jwt_header _ Hsep Hheader).
  rewrite (split_piece p "."%char _ _ Hsep Hpayload).
  rewrite (split_last p "."%char sig Hsep Hs). reflexivity.
Qed.

(** ** Records *)

Lemma password_population :
  PyStr.chars (PyStr.ascii_letters +:+ PyStr.digits +:+ "!@#$%^&*") <> []
  /\ forallb is_password_char
       (PyStr.chars (PyStr.ascii_letters +:+ PyStr.digits +:+ "!@#$%^&*")) = true
  /\ length (PyStr.chars (PyStr.ascii_letters +:+ PyStr.digits +:+ "!@#$%^&*")) = 70.
Proof. repeat split. discriminate. Qed.

Lemma password_population_NoDup :
  List.NoDup (PyStr.chars (PyStr.ascii_letters +:+ PyStr.digits +:+ "!@#$%^&*")).
Proof.
  apply (NoDup_count_occ' ascii_dec). intros c Hc.
  vm_compute in Hc.
  repeat (destruct Hc as [<-|Hc]; [vm_compute; reflexivity|]).
  destruct Hc.
Qed.

Lemma _generate_username_advanced (w : World) :
  advanced 5 0 w (world (_generate_username w)).
Proof.
  unfold _generate_username.
  eapply advanced_eq.
  - apply advanced_bind; [apply choice_advanced | intros].
    apply advanced_bind; [apply choices_advanced | intros].
    apply advanced_ret.
  - reflexivity.
  - reflexivity.
Qed.

Lemma _generate_password_advanced (w : World) :
  advanced 12 0 w (world (_generate_password w)).
Proof.
  unfold _generate_password. cbv zeta.
  eapply advanced_eq.
  - apply advanced_bind; [apply choices_advanced | intros].
    apply advanced_ret.
  - reflexivity.
  - reflexivity.
Qed.

Lemma _generate_email_advanced (username : string) (w : World) :
  advanced 1 0 w (world (_generate_email username w)).
Proof.
  unfold _generate_email.
  eapply advanced_eq.
  - apply advanced_bind; [apply choice_advanced | intros].
    apply advanced_ret.
  - reflexivity.
  - reflexivity.
Qed.

(** X6.  A generated password has [PASSWORD_LENGTH = 12] characters, each an
    ASCII letter, a digit or one of the eight symbols; the 70 characters it
    is drawn from are all different, so every one of them is as likely as
    any other at each position; exactly 12 draws are made. *)
Theorem _generate_password_shape (w : World) :
  String.length (value (_generate_password w)) = PASSWORD_LENGTH
  /\ PyStr.forallb_chars is_password_char (value (_generate_password w)) = true
  /\ List.NoDup (PyStr.chars (PyStr.ascii_letters +:+ PyStr.digits +:+ "!@#$%^&*"))
  /\ length (PyStr.chars (PyStr.ascii_letters +:+ PyStr.digits +:+ "!@#$%^&*")) = 70
  /\ advanced 12 0 w (world (_generate_password w)).
Proof.
  destruct password_population as (Hne & Hall & Hlen).
  split; [|split; [|split; [exact password_population_NoDup|split; [exact Hlen|]]]].
  - unfold _generate_password. step_py.
    rewrite length_join_chars, choices_length. reflexivity.
  - unfold _generate_password. step_py.
    rewrite forallb_join_chars. apply choices_forallb; assumption.
  - apply _generate_password_advanced.
Qed.

Lemma or_generate_given (s : string) (gen : Py string) (w : World) :
  s <> "" -> or_generate (Some s) gen w = (s, w).
Proof.
  intros Hs. unfold or_generate, falsy.
  apply String.eqb_neq in Hs. rewrite Hs. reflexivity.
Qed.

Lemma or_generate_omitted (v : option string) (gen : Py string) (w : World) :
  falsy v = true -> or_generate v gen w = gen w.
Proof. intros Hv. unfold or_generate. rewrite Hv. reflexivity. Qed.

Lemma or_generate_advanced (k : nat) (v : option string) (gen : Py string)
    (w : World) :
  (forall w0, advanced k 0 w0 (world (gen w0))) ->
  exists r, advanced r 0 w (world (or_generate v gen w)).
Proof.
  intros Hgen. destruct (falsy v) eqn:Hv.
  - exists k. rewrite (or_generate_omitted v gen w Hv). apply Hgen.
  - exists 0. destruct v as [s|]; [|discriminate Hv].
    rewrite or_generate_given; [apply advanced_refl|].
    simpl in Hv. apply String.eqb_neq. exact Hv.
Qed.










(** ** Account numbers *)








(** ** The pool of workers *)











Lemma run_without_workers (num_accounts : Z) (service : string) (sched : list nat)
    (c : Pool) :
  workers c = [] -> run num_accounts service sched c = c.
Proof.
  intros Hnone. induction sched as [|i sched IH]; [reflexivity|].
  change (run num_accounts service (i :: sched) c)
    with (run num_accounts service sched (pool_step num_accounts service i c)).
  assert (Hstep : pool_step num_accounts service i c = c).
  { unfold pool_step. rewrite Hnone. reflexivity. }
  rewrite Hstep. exact IH.
Qed.

(** X13.  With a thread count of zero or less no worker is started: whatever
    the number of accounts asked for below the ceiling, the call returns at
    once, writes an empty array to the output file and reports 0 accounts
    created; the random generator and the clock are not consulted. *)
Theorem create_accounts_without_workers
    (num_accounts : Z) (service output_file : string) (delay : Q) (threads : Z)
    (sched : list nat) (w : World) :
  (num_accounts <= 1000)%Z ->
  (threads <= 0)%Z ->
  exists w' : World,
    create_accounts num_accounts service output_file delay threads sched w
    = Completed w'
    /\ w_fs w' = <[output_file := JsonFile (JArr []) 2]> (w_fs w)
    /\ w_rpos w' = w_rpos w
    /\ w_cpos w' = w_cpos w
    /\ w_stdout w'
       = (w_stdout w
          ++ [opening_line num_accounts service threads +:+ PyStr.nl;
              (Fore.GREEN +:+ PyStr.nl +:+ PyStr.nl +:+ "[+] Created "
               +:+ "0" +:+ " accounts. Saved to " +:+ output_file)
              +:+ PyStr.nl])%list.
Proof.
  intros Hmax Hthreads.
  set (w0 := print (opening_line num_accounts service threads) w).
  assert (Hrun : run num_accounts service sched (initial_pool delay threads w0)
                 = initial_pool delay threads w0).
  { apply run_without_workers. cbn [initial_pool workers].
    replace (Z.to_nat threads) with 0 by lia. reflexivity. }
  assert (Hnone : workers (initial_pool delay threads w0) = []).
  { cbn [initial_pool workers]. replace (Z.to_nat threads) with 0 by lia.
    reflexivity. }
  eexists. split.
  - apply create_accounts_joined; [unfold MAX_ACCOUNTS; lia|].
    fold w0. rewrite Hrun, Hnone. reflexivity.
  - fold w0. rewrite Hrun. cbn [initial_pool shared sh_accounts sh_world].
    unfold w0. destruct w as [rand rpos clock cpos out fs].
    cbn [print stdout_write write_file w_fs w_rpos w_cpos w_stdout].
    rewrite <- app_assoc. repeat split.
Qed.

Lemma create_accounts_without_workers_witness :
  ((5 <= 1000)%Z /\ (0 <= 0)%Z)
  /\ exists w' : World,
       create_accounts 5 "custom" "accounts.json" (1 # 2) 0 [0; 1; 2] sample_world
       = Completed w'
       /\ w_fs w' = <["accounts.json" := JsonFile (JArr []) 2]> (w_fs sample_world)
       /\ w_rpos w' = w_rpos sample_world
       /\ w_cpos w' = w_cpos sample_world
       /\ w_stdout w'
          = (w_stdout sample_world
             ++ [opening_line 5 "custom" 0 +:+ PyStr.nl;
                 (Fore.GREEN +:+ PyStr.nl +:+ PyStr.nl +:+ "[+] Created "
                  +:+ "0" +:+ " accounts. Saved to " +:+ "accounts.json")
                 +:+ PyStr.nl])%list.
Proof.
  split; [split; discriminate|].
  apply (create_accounts_without_workers 5 "custom" "accounts.json" (1 # 2) 0
           [0; 1; 2] sample_world); discriminate.
Defined.

(** A step of a worker on its way to a refused [time.sleep]. *)
Lemma worker_step_doomed (num_accounts : Z) (service : string) (p : pc) (r : nat)
    (s : Shared) :
  (len (sh_accounts s) < num_accounts)%Z ->
  sleep_returns (delay (sh_creator s)) = false ->
  doom_rank p = Some r ->
  exists p', worker_step num_accounts service p s = (p', s)
             /\ doom_rank p' = Some (Nat.min 2 (S r)).
Proof.
  intros Hlt Hsleep Hrank.
  destruct p; try discriminate Hrank; injection Hrank as <-; cbn [worker_step].
  - replace (len (sh_accounts s) >=? num_accounts)%Z with false
      by (symmetry; rewrite Z.geb_leb; apply Z.leb_gt; lia).
    eexists. split; reflexivity.
  - rewrite Hsleep. eexists. split; reflexivity.
  - eexists. split; reflexivity.
Qed.

Lemma run_doomed (num_accounts : Z) (service : string) (sched : list nat) :
  forall c : Pool,
    (len (sh_accounts (shared c)) < num_accounts)%Z ->
    sleep_returns (delay (sh_creator (shared c))) = false ->
    (forall j p, workers c !! j = Some p -> is_Some (doom_rank p)) ->
    shared (run num_accounts service sched c) = shared c
    /\ length (workers (run num_accounts service sched c)) = length (workers c)
    /\ forall j p r,
         workers c !! j = Some p -> doom_rank p = Some r ->
         exists p',
           workers (run num_accounts service sched c) !! j = Some p'
           /\ doom_rank p'
              = Some (Nat.min 2 (r + count_occ Nat.eq_dec sched j)).
Proof.
  induction sched as [|i sched IH]; intros c Hlt Hsleep Hranked.
  - split; [reflexivity|]. split; [reflexivity|].
    intros j p r Hj Hr. exists p. split; [exact Hj|].
    destruct (Hranked j p Hj) as [r' Hr'].
    rewrite Hr in *. cbn [count_occ]. rewrite Nat.add_0_r.
    destruct p; try discriminate Hr; injection Hr as <-; reflexivity.
  - change (run num_accounts service (i :: sched) c)
      with (run num_accounts service sched (pool_step num_accounts service i c)).
    set (c1 := pool_step num_accounts service i c).
    assert (Hc1 : shared c1 = shared c
                  /\ length (workers c1) = length (workers c)
                  /\ forall j p r,
                       workers c !! j = Some p -> doom_rank p = Some r ->
                       exists p', workers c1 !! j = Some p'
                                  /\ doom_rank p'
                                     = Some (if Nat.eq_dec i j
                                             then Nat.min 2 (S r) else r)).
    { unfold c1, pool_step.
      destruct (workers c !! i) as [q|] eqn:Hq.
      - destruct (Hranked i q Hq) as [rq Hrq].
        destruct (worker_step_doomed num_accounts service q rq (shared c)
                    Hlt Hsleep Hrq) as (q' & Hstep & Hq').
        rewrite Hstep. cbn [shared workers].
        split; [reflexivity|]. split; [apply length_insert|].
        intros j p r Hj Hr. destruct (Nat.eq_dec i j) as [<-|Hne].
        + exists q'. split.
          * apply list_lookup_insert_eq. eapply lookup_lt_Some. exact Hq.
          * rewrite Hq in Hj. injection Hj as <-. congruence.
        + exists p. split; [|exact Hr].
          rewrite list_lookup_insert_ne by assumption. exact Hj.
      - split; [reflexivity|]. split; [reflexivity|].
        intros j p r Hj Hr. destruct (Nat.eq_dec i j) as [<-|Hne].
        + congruence.
        + exists p. auto. }
    destruct Hc1 as (Hshared & Hlen & Hstep).
    destruct (IH c1) as (Hshared' & Hlen' & Hrun).
    { rewrite Hshared. exact Hlt. }
    { rewrite Hshared. exact Hsleep. }
    { intros j p Hj.
      assert (Hjc : j < length (workers c)).
      { rewrite <- Hlen. eapply lookup_lt_Some. exact Hj. }
      destruct (lookup_lt_is_Some_2 (workers c) j Hjc) as [p0 Hp0].
      destruct (Hranked j p0 Hp0) as [r0 Hr0].
      destruct (Hstep j p0 r0 Hp0 Hr0) as (p' & Hp' & Hrank').
      rewrite Hj in Hp'. injection Hp' as <-. eauto. }
    split; [congruence|]. split; [congruence|].
    intros j p r Hj Hr.
    destruct (Hstep j p r Hj Hr) as (p1 & Hp1 & Hr1).
    destruct (Hrun j p1 _ Hp1 Hr1) as (p' & Hp' & Hr').
    exists p'. split; [exact Hp'|]. rewrite Hr'. f_equal.
    cbn [count_occ]. destruct (Nat.eq_dec i j); lia.
Qed.

(** X14.  A delay [time.sleep] refuses, a negative one or one too long for
    it, makes every worker die at its first [time.sleep]: when at least one account is asked for, in every run in
    which each worker gets to run twice the call returns having written an
    empty array to the output file, without a single account created and
    without the random generator consulted. *)
Theorem create_accounts_refused_sleep
    (num_accounts : Z) (service output_file : string) (delay : Q) (threads : Z)
    (sched : list nat) (w : World) :
  (1 <= num_accounts <= 1000)%Z ->
  sleep_returns delay = false ->
  (forall i, i < Z.to_nat threads -> 2 <= count_occ Nat.eq_dec sched i) ->
  exists w' : World,
    create_accounts num_accounts service output_file delay threads sched w
    = Completed w'
    /\ w_fs w' = <[output_file := JsonFile (JArr []) 2]> (w_fs w)
    /\ records (w_fs w' !! output_file) = Some []
    /\ w_rpos w' = w_rpos w
    /\ w_cpos w' = w_cpos w.
Proof.
  intros Hrange Hsleep Hfair.
  set (w0 := print (opening_line num_accounts service threads) w).
  destruct (run_doomed num_accounts service sched (initial_pool delay threads w0))
    as (Hshared & Hlen & Hrun).
  { cbn [initial_pool shared sh_accounts]. unfold len. simpl. lia. }
  { exact Hsleep. }
  { intros j p Hj. cbn [initial_pool workers] in Hj.
    apply lookup_replicate in Hj as [-> _]. eexists. reflexivity. }
  assert (Hterm : forallb terminated
                    (workers (run num_accounts service sched
                                (initial_pool delay threads w0))) = true).
  { apply forallb_forall. intros p Hp.
    apply list_elem_of_In, list_elem_of_lookup_1 in Hp as [j Hj].
    assert (Hjt : j < Z.to_nat threads).
    { apply lookup_lt_Some in Hj. rewrite Hlen in Hj.
      cbn [initial_pool workers] in Hj. rewrite length_replicate in Hj. exact Hj. }
    destruct (Hrun j AtCheck 0) as (p' & Hp' & Hr').
    { cbn [initial_pool workers]. apply lookup_replicate. auto. }
    { reflexivity. }
    rewrite Hj in Hp'. injection Hp' as <-.
    specialize (Hfair j Hjt).
    replace (Nat.min 2 (0 + count_occ Nat.eq_dec sched j)) with 2 in Hr' by lia.
    destruct p; try discriminate Hr'. reflexivity. }
  eexists. split.
  - apply create_accounts_joined; [unfold MAX_ACCOUNTS; lia | exact Hterm].
  - fold w0. rewrite Hshared. cbn [initial_pool shared sh_accounts sh_world].
    unfold w0. destruct w as [rand rpos clock cpos out fs].
    cbn [print stdout_write write_file w_fs w_rpos w_cpos w_stdout
         json_of_accounts map].
    rewrite lookup_insert_eq. repeat split.
Qed.

Lemma create_accounts_refused_sleep_witness :
  ((1 <= 2 <= 1000)%Z /\ sleep_returns (-1 # 2) = false
   /\ forall i, i < Z.to_nat 2 -> 2 <= count_occ Nat.eq_dec [0; 1; 0; 1] i)
  /\ exists w' : World,
       create_accounts 2 "custom" "accounts.json" (-1 # 2) 2 [0; 1; 0; 1]
                       sample_world
       = Completed w'
       /\ w_fs w' = <["accounts.json" := JsonFile (JArr []) 2]> (w_fs sample_world)
       /\ records (w_fs w' !! "accounts.json") = Some []
       /\ w_rpos w' = w_rpos sample_world
       /\ w_cpos w' = w_cpos sample_world.
Proof.
  assert (Hfair : forall i, i < Z.to_nat 2 ->
                            2 <= count_occ Nat.eq_dec [0; 1; 0; 1] i).
  { intros i Hi. destruct i as [|[|i]]; [vm_compute; lia | vm_compute; lia |].
    exfalso. vm_compute in Hi. lia. }
  split; [split; [split; discriminate | split; [reflexivity | exact Hfair]]|].
  apply (create_accounts_refused_sleep 2 "custom" "accounts.json" (-1 # 2) 2
           [0; 1; 0; 1] sample_world);
    [split; discriminate | reflexivity | exact Hfair].
Defined.

(** *** What the pool leaves alone *)

Lemma credentials_advanced (username password email : option string) (w : World) :
  exists r, advanced r 0 w (world (credentials username password email w)).
Proof.
  unfold credentials. step_py.
  destruct (or_generate_advanced 5 username _generate_username w
              _generate_username_advanced) as (r1 & H1).
  set (name := value (or_generate username _generate_username w)) in *.
  set (w1 := world (or_generate username _generate_username w)) in *.
  destruct (or_generate_advanced 12 password _generate_password w1
              _generate_password_advanced) as (r2 & H2).
  set (w2 := world (or_generate password _generate_password w1)) in *.
  destruct (or_generate_advanced 1 email (_generate_email name) w2
              (_generate_email_advanced name)) as (r3 & H3).
  exists (r1 + r2 + r3).
  eapply advanced_eq.
  - eapply advanced_trans; [eapply advanced_trans; [exact H1 | exact H2] | exact H3].
  - reflexivity.
  - reflexivity.
Qed.

Lemma identify_advanced (self : AccountCreator) (service : string) (w : World) :
  advanced 1 1 w (world (identify self service w)).
Proof.
  unfold identify. cbv zeta.
  eapply advanced_eq.
  - apply advanced_bind; [apply now_strftime_advanced | intros].
    apply advanced_bind; [apply choice_advanced | intros].
    apply advanced_ret.
  - reflexivity.
  - reflexivity.
Qed.

Lemma record_advanced
    (service account_id username password email creation_date user_agent : string)
    (w : World) :
  advanced 1 0 w
           (world (record service account_id username password email
                          creation_date user_agent w)).
Proof.
  unfold record.
  eapply advanced_eq.
  - apply advanced_bind; [apply random_advanced | intros]. apply advanced_ret.
  - reflexivity.
  - reflexivity.
Qed.

(** A step of a worker changes no file and neither tape. *)
Lemma worker_step_leaves (num_accounts : Z) (service : string) (p : pc) (s : Shared) :
  w_fs (sh_world (snd (worker_step num_accounts service p s))) = w_fs (sh_world s)
  /\ w_rand (sh_world (snd (worker_step num_accounts service p s)))
     = w_rand (sh_world s)
  /\ w_clock (sh_world (snd (worker_step num_accounts service p s)))
     = w_clock (sh_world s).
Proof.
  destruct p; cbn [worker_step].
  - destruct (len (sh_accounts s) >=? num_accounts)%Z; repeat split.
  - destruct (sleep_returns (delay (sh_creator s))); [|repeat split].
    destruct (credentials_advanced None None None (sh_world s))
      as (r & A1 & _ & A3 & _ & _ & A6).
    unfold world in *.
    destruct (credentials None None None (sh_world s)) as [[[u pw] e] w1].
    cbn [fst snd with_world sh_world] in *. auto.
  - pose proof (identify_advanced (sh_creator s) service (sh_world s))
      as (A1 & _ & A3 & _ & _ & A6).
    unfold world in *.
    destruct (identify (sh_creator s) service (sh_world s)) as [[[i d] a] w1].
    cbn [fst snd with_world sh_world] in *. auto.
  - repeat split.
  - pose proof (record_advanced service account_id username password email
                  creation_date user_agent (sh_world s))
      as (A1 & _ & A3 & _ & _ & A6).
    unfold world in *.
    destruct (record service account_id username password email creation_date
                     user_agent (sh_world s)) as [a w1].
    cbn [fst snd with_world sh_world] in *. auto.
  - repeat split.
  - cbn [fst snd with_world sh_world].
    match goal with |- context [stdout_write ?t ?w0] =>
      destruct (stdout_write_effect t w0) as (B1 & _ & B3 & _ & _ & B6) end.
    auto.
  - repeat split.
  - repeat split.
Qed.

Lemma run_leaves (num_accounts : Z) (service : string) (sched : list nat) :
  forall c : Pool,
    w_fs (sh_world (shared (run num_accounts service sched c)))
    = w_fs (sh_world (shared c))
    /\ w_rand (sh_world (shared (run num_accounts service sched c)))
       = w_rand (sh_world (shared c))
    /\ w_clock (sh_world (shared (run num_accounts service sched c)))
       = w_clock (sh_world (shared c)).
Proof.
  induction sched as [|i sched IH]; intros c; [repeat split|].
  change (run num_accounts service (i :: sched) c)
    with (run num_accounts service sched (pool_step num_accounts service i c)).
  destruct (IH (pool_step num_accounts service i c)) as (H1 & H2 & H3).
  rewrite H1, H2, H3. unfold pool_step.
  destruct (workers c !! i) as [p|]; [|repeat split].
  pose proof (worker_step_leaves num_accounts service p (shared c)) as Hstep.
  destruct (worker_step num_accounts service p (shared c)) as [p' s'].
  exact Hstep.
Qed.

(** X15.  A call of [create_accounts] that returns has changed no file but
    the output file; below the ceiling the output file holds, at an
    indentation of 2, the array made of the list [accounts] as the workers
    left it at the end of the schedule, whatever the path held before and
    whatever the workers drew and printed on the way. *)
Theorem create_accounts_touches_one_file
    (num_accounts : Z) (service output_file : string) (delay : Q) (threads : Z)
    (sched : list nat) (w w' : World) :
  create_accounts num_accounts service output_file delay threads sched w
  = Completed w' ->
  (forall path : string, path <> output_file -> w_fs w' !! path = w_fs w !! path)
  /\ ((num_accounts <= 1000)%Z ->
      w_fs w' !! output_file
      = Some (JsonFile
                (json_of_accounts
                   (sh_accounts
                      (shared
                         (run num_accounts service sched
                            (initial_pool delay threads
                               (print (opening_line num_accounts service threads)
                                      w))))))
                2)).
Proof.
  intros Hrun. unfold create_accounts, MAX_ACCOUNTS in Hrun.
  destruct (num_accounts >? 1000)%Z eqn:Hceiling.
  - injection Hrun as <-.
    destruct (print_effect refusal_line w) as (_ & _ & _ & _ & _ & P1).
    rewrite P1. split; [reflexivity|]. intros Hle. exfalso. lia.
  - set (w0 := print (opening_line num_accounts service threads) w) in *.
    set (c := run num_accounts service sched (initial_pool delay threads w0)) in *.
    destruct (forallb terminated (workers c)); [|discriminate Hrun].
    injection Hrun as <-.
    destruct (run_leaves num_accounts service sched
                (initial_pool delay threads w0)) as (L1 & _).
    fold c in L1. cbn [initial_pool shared sh_world] in L1.
    destruct (print_effect (opening_line num_accounts service threads) w)
      as (_ & _ & _ & _ & _ & P1).
    fold w0 in P1.
    match goal with |- context [print ?t (write_file ?p ?f ?w1)] =>
      destruct (print_effect t (write_file p f w1)) as (_ & _ & _ & _ & _ & Q1);
      destruct (write_file_effect p f w1) as (_ & _ & _ & _ & _ & R1)
    end.
    rewrite Q1, R1, L1, P1.
    split.
    + intros path Hpath. apply lookup_insert_ne. congruence.
    + intros _. apply lookup_insert_eq.
Qed.

Lemma create_accounts_touches_one_file_witness :
  (create_accounts 2 "custom" "accounts.json" (1 # 2) 2 collision_schedule
                   sample_world
   = Completed
       (world_left
          (create_accounts 2 "custom" "accounts.json" (1 # 2) 2
                           collision_schedule sample_world)
          sample_world))
  /\ ((forall path : string,
         path <> "accounts.json" ->
         w_fs (world_left
                 (create_accounts 2 "custom" "accounts.json" (1 # 2) 2
                                  collision_schedule sample_world)
                 sample_world) !! path
         = w_fs sample_world !! path)
      /\ ((2 <= 1000)%Z ->
          w_fs (world_left
                  (create_accounts 2 "custom" "accounts.json" (1 # 2) 2
                                   collision_schedule sample_world)
                  sample_world) !! "accounts.json"
          = Some (JsonFile
                    (json_of_accounts
                       (sh_accounts
                          (shared
                             (run 2 "custom" collision_schedule
                                (initial_pool (1 # 2) 2
                                   (print (opening_line 2 "custom" 2)
                                          sample_world))))))
                    2))).
Proof.
  assert (Hrun : create_accounts 2 "custom" "accounts.json" (1 # 2) 2
                                 collision_schedule sample_world
                 = Completed
                     (world_left
                        (create_accounts 2 "custom" "accounts.json" (1 # 2) 2
                                         collision_schedule sample_world)
                        sample_world)).
  { destruct (create_accounts_written 2 "custom" "accounts.json" (1 # 2) 2
                collision_schedule sample_world) as (w' & Hrun & _);
      [discriminate | vm_compute; reflexivity |].
    rewrite Hrun. reflexivity. }
  split; [exact Hrun|].
  apply (create_accounts_touches_one_file 2 "custom" "accounts.json" (1 # 2) 2
           collision_schedule sample_world _ Hrun).
Defined.

(** *** The two counters *)

Lemma count_cons (f : pc -> bool) (p : pc) (ps : list pc) :
  length (List.filter f (p :: ps)) = Nat.b2n (f p) + length (List.filter f ps).
Proof. simpl. destruct (f p); reflexivity. Qed.

Lemma count_insert (f : pc -> bool) (ps : list pc) (i : nat) (p p' : pc) :
  ps !! i = Some p ->
  length (List.filter f (<[i := p']> ps)) + Nat.b2n (f p)
  = length (List.filter f ps) + Nat.b2n (f p').
Proof.
  revert i. induction ps as [|q ps IH]; intros i Hi; [discriminate|].
  destruct i as [|i]; simpl in Hi.
  - injection Hi as ->.
    change (<[0 := p']> (p :: ps)) with (p' :: ps).
    rewrite !count_cons. lia.
  - change (<[S i := p']> (q :: ps)) with (q :: <[i := p']> ps).
    rewrite !count_cons. specialize (IH i Hi). lia.
Qed.

(** A step of a worker keeps the counter of the creator equal to the number
    of accounts plus one for a worker that has counted its account and not
    appended it. *)
Lemma worker_step_counts (num_accounts : Z) (service : string) (p : pc) (s : Shared) :
  (created (sh_creator (snd (worker_step num_accounts service p s)))
   + Z.of_nat (Nat.b2n (counted p))
   + len (sh_accounts s)
   = created (sh_creator s)
     + Z.of_nat (Nat.b2n (counted (fst (worker_step num_accounts service p s))))
     + len (sh_accounts (snd (worker_step num_accounts service p s))))%Z.
Proof.
  destruct p; cbn [worker_step].
  - destruct (len (sh_accounts s) >=? num_accounts)%Z; reflexivity.
  - destruct (sleep_returns (delay (sh_creator s))); [|reflexivity].
    destruct (credentials None None None (sh_world s)) as [[[u pw] e] w1].
    reflexivity.
  - destruct (identify (sh_creator s) service (sh_world s)) as [[[i d] a] w1].
    reflexivity.
  - cbn [fst snd sh_creator sh_accounts count_created created counted Nat.b2n].
    lia.
  - destruct (record service account_id username password email creation_date
                     user_agent (sh_world s)) as [a w1].
    reflexivity.
  - cbn [fst snd sh_creator sh_accounts counted Nat.b2n]. rewrite len_app. lia.
  - reflexivity.
  - reflexivity.
  - reflexivity.
Qed.

Lemma run_counts (num_accounts : Z) (service : string) (sched : list nat) :
  forall c : Pool,
    created (sh_creator (shared c))
    = (len (sh_accounts (shared c))
       + Z.of_nat (length (List.filter counted (workers c))))%Z ->
    created (sh_creator (shared (run num_accounts service sched c)))
    = (len (sh_accounts (shared (run num_accounts service sched c)))
       + Z.of_nat (length (List.filter counted
                             (workers (run num_accounts service sched c)))))%Z.
Proof.
  induction sched as [|i sched IH]; intros c Hc; [exact Hc|].
  apply (IH (pool_step num_accounts service i c)).
  unfold pool_step. destruct (workers c !! i) as [p|] eqn:Hp; [|exact Hc].
  pose proof (worker_step_counts num_accounts service p (shared c)) as Hstep.
  destruct (worker_step num_accounts service p (shared c)) as [p' s'].
  cbn [fst snd shared workers] in *.
  pose proof (count_insert counted (workers c) i p p' Hp) as Hcount.
  lia.
Qed.

Lemma terminated_not_counted (ps : list pc) :
  forallb terminated ps = true -> List.filter counted ps = [].
Proof.
  induction ps as [|p ps IH]; [reflexivity|].
  cbn [forallb List.filter]. intros H. apply andb_true_iff in H as [Hp Hps].
  destruct p; try discriminate Hp; cbn [counted]; auto.
Qed.

(** X16.  The counter of the creator and the list of accounts stay in step:
    at every moment of every run [self.created] is the number of accounts
    appended plus the number of workers that have incremented the counter
    and not appended their record yet; once every worker has terminated,
    the counter is exactly the number of accounts. *)
Theorem pool_counters_agree
    (num_accounts : Z) (service : string) (delay : Q) (threads : Z)
    (sched : list nat) (w : World) :
  created (sh_creator (shared (run num_accounts service sched
                                   (initial_pool delay threads w))))
  = (len (sh_accounts (shared (run num_accounts service sched
                                   (initial_pool delay threads w))))
     + Z.of_nat (length (List.filter counted
                           (workers (run num_accounts service sched
                                         (initial_pool delay threads w))))))%Z
  /\ (forallb terminated
              (workers (run num_accounts service sched
                            (initial_pool delay threads w))) = true ->
      created (sh_creator (shared (run num_accounts service sched
                                       (initial_pool delay threads w))))
      = len (sh_accounts (shared (run num_accounts service sched
                                      (initial_pool delay threads w))))).
Proof.
  assert (Hinv := run_counts num_accounts service sched
                    (initial_pool delay threads w)).
  assert (Hinit : List.filter counted (replicate (Z.to_nat threads) AtCheck) = []).
  { induction (Z.to_nat threads) as [|n IH]; [reflexivity | exact IH]. }
  cbn [initial_pool shared workers sh_creator sh_accounts] in Hinv.
  rewrite Hinit in Hinv. specialize (Hinv eq_refl).
  split; [exact Hinv|].
  intros Hterm. rewrite Hinv, (terminated_not_counted _ Hterm). simpl. lia.
Qed.

(** ** One token per line, whatever the kind *)

Lemma avoids_of_charset (p : ascii -> bool) (x : ascii) (s : string) :
  p x = false ->
  PyStr.forallb_chars p s = true ->
  PyStr.forallb_chars (fun c => negb (Ascii.eqb c x)) s = true.
Proof.
  intros Hx. apply forallb_chars_impl. intros c Hc.
  destruct (Ascii.eqb c x) eqn:E; [|reflexivity].
  apply Ascii.eqb_eq in E. subst. congruence.
Qed.

Lemma jwt_payload_no_newline (sub : string) (iat exp : Z) :
  PyStr.forallb_chars PyStr.is_alnum sub = true ->
  PyStr.forallb_chars (fun c => negb (Ascii.eqb c "010"))
                      (jwt_payload ("user_" +:+ sub) iat exp) = true.
Proof.
  intros Hsub. unfold jwt_payload.
  assert (Hz : forall z, PyStr.forallb_chars (fun c => negb (Ascii.eqb c "010"))
                           (PyStr.str_of_Z z) = true).
  { intros z.
    apply (avoids_of_charset (fun c => PyStr.is_digit c || Ascii.eqb c "-"));
      [reflexivity | apply str_of_Z_chars]. }
  pose proof (avoids_of_charset PyStr.is_alnum "010"%char sub eq_refl Hsub) as Hs.
  rewrite !forallb_chars_app, !Hz, Hs. reflexivity.
Qed.

(** No token holds a line feed. *)
Lemma generate_no_newline (self : TokenGenerator) (token_type : string) (w : World) :
  PyStr.forallb_chars (fun c => negb (Ascii.eqb c "010"))
                      (fst (value (generate self token_type w))) = true.
Proof.
  destruct (String.eqb token_type "uuid") eqn:Euuid.
  { apply String.eqb_eq in Euuid. subst. rewrite generate_uuid_eq.
    cbn [fst snd value world]. fold (value (_generate_uuid w)).
    destruct (_generate_uuid_groups w)
      as (g1 & g2 & g3 & g4 & g5 & -> & _ & (A1 & A2 & A3 & A4 & A5)).
    rewrite !forallb_chars_app.
    rewrite (avoids_of_charset PyStr.is_lower_hex "010"%char g1 eq_refl A1),
            (avoids_of_charset PyStr.is_lower_hex "010"%char g2 eq_refl A2),
            (avoids_of_charset PyStr.is_lower_hex "010"%char g3 eq_refl A3),
            (avoids_of_charset PyStr.is_lower_hex "010"%char g4 eq_refl A4),
            (avoids_of_charset PyStr.is_lower_hex "010"%char g5 eq_refl A5).
    reflexivity. }
  destruct (String.eqb token_type "jwt") eqn:Ejwt.
  { apply String.eqb_eq in Ejwt. subst. rewrite generate_jwt_eq.
    cbn [fst snd value world]. fold (value (_generate_jwt w)).
    destruct (_generate_jwt_parts w) as (ds & sig & -> & _ & Hdig & _ & Hhex).
    rewrite !forallb_chars_app.
    rewrite jwt_payload_no_newline.
    - rewrite (avoids_of_charset is_hexdigit "010"%char sig eq_refl Hhex).
      reflexivity.
    - eapply forallb_chars_impl; [|exact Hdig]. intros c Hc.
      unfold PyStr.is_alnum. rewrite Hc. reflexivity. }
  apply String.eqb_neq in Euuid, Ejwt.
  destruct (generate_plain_token self token_type w Euuid Ejwt) as [_ Hchars].
  exact (avoids_of_charset (plain_charset token_type) "010"%char _
           (plain_charset_no_newline token_type) Hchars).
Qed.

(** X17.  For every kind and every count, the text [generate_tokens] writes
    is one token per line: no token holds a line feed, and the text split at
    its line feeds is the [num_tokens] tokens (none for a count below one)
    followed by the empty piece after the last line feed. *)
Theorem generate_tokens_one_per_line
    (num_tokens : Z) (token_type output_file : string) (w : World) :
  exists tokens : list string,
    w_fs (generate_tokens num_tokens token_type output_file w) !! output_file
    = Some (TextFile (file_lines tokens))
    /\ length tokens = Z.to_nat num_tokens
    /\ Forall (fun token =>
                 PyStr.forallb_chars (fun c => negb (Ascii.eqb c "010")) token
                 = true) tokens
    /\ PyStr.split "010"%char (file_lines tokens) = (tokens ++ [""])%list.
Proof.
  destruct (generate_tokens_spec
              (fun token =>
                 PyStr.forallb_chars (fun c => negb (Ascii.eqb c "010")) token
                 = true)
              num_tokens token_type output_file w)
    as (tokens & Hlen & Hall & Hfs & _).
  { intros g w0. apply generate_no_newline. }
  exists tokens. rewrite Hfs, lookup_insert_eq.
  split; [reflexivity|]. split; [exact Hlen|]. split; [exact Hall|].
  apply (split_file_lines (fun c => negb (Ascii.eqb c "010")));
    [reflexivity | exact Hall].
Qed.
